(** * server.js: the request handlers of the course-application portal

    A shallow embedding of [src/server.js].  JavaScript values are an
    inductive type with the language's truthiness; the MySQL connection is a
    small relational store on which the SQL statements of the source are
    interpreted; every handler is a computation in a state-and-exception
    monad over that store, written in the order of the source. *)

From Stdlib Require Import ZArith String Ascii PrimFloat Uint63.
From stdpp Require Import gmap strings list fin_maps pretty.

Local Open Scope Z_scope.
Local Open Scope string_scope.
Local Open Scope list_scope.

(** ** JavaScript values *)

(** What [JSON.parse], multer's field parser and the MySQL driver hand to
    the handlers.  Numbers are IEEE 754 doubles, as in the language. *)
#[warnings="-register-all"]
Inductive value : Type :=
| VUndefined
| VNull
| VBool (b : bool)
| VNum (x : float)
| VStr (s : string)
| VArr (l : list value)
| VObj (o : gmap string value).

(** [ToBoolean]: what [!v], [if (v)] and [v || w] test. *)
Definition truthy (v : value) : bool :=
  match v with
  | VUndefined | VNull => false
  | VBool b => b
  | VNum x => negb (PrimFloat.is_zero x || PrimFloat.is_nan x)
  | VStr s => negb (String.eqb s "")
  | VArr _ | VObj _ => true
  end.

(** [a || b] on values. *)
Definition js_or (a b : value) : value := if truthy a then a else b.

(** [v[i]] for an integer index.  The source indexes truthy values only, so
    the [TypeError] of [undefined[i]] and [null[i]] cannot arise; those
    two cases are given [VUndefined] to keep the function total. *)
Definition get_index (v : value) (i : nat) : value :=
  match v with
  | VArr l => default VUndefined (l !! i)
  | VObj o => default VUndefined (o !! pretty i)
  | VStr s => match String.get i s with
              | Some c => VStr (String c EmptyString)
              | None => VUndefined
              end
  | _ => VUndefined
  end.

(** [v.k] for a named property [k] that is neither an index nor [length]
    nor a method of a prototype (the handlers read [subject] and [grade]
    this way): only plain objects carry such a property. *)
Definition get_prop (v : value) (k : string) : value :=
  match v with
  | VObj o => default VUndefined (o !! k)
  | _ => VUndefined
  end.

(** A number of the driver ([insertId]) as a JavaScript number; exact for
    [0 <= z < 2^53]. *)
Definition js_number (z : Z) : value := VNum (PrimFloat.of_uint63 (Uint63.of_Z z)).

(** ** Regular expression of the file filter *)

(** [/jpeg|jpg|png|gif/] is an alternation of literals without anchors and
    without flags; [RegExp.prototype.test] succeeds when some alternative
    occurs at some position of the subject. *)
Definition regex := list string.

Fixpoint regex_test (re : regex) (s : string) : bool :=
  existsb (fun lit => String.prefix lit s) re
  || match s with
     | EmptyString => false
     | String _ rest => regex_test re rest
     end.

(** ** HTTP requests and responses *)

(** A file part of a multipart request, as busboy reports it to multer. *)
Record upload_part := {
  part_fieldname : string;
  part_originalname : string;
  part_mimetype : string
}.

(** [req.file] once multer's disk storage has handled the part. *)
Record multer_file := {
  fieldname : string;
  originalname : string;
  mimetype : string;
  destination : string;
  filename : string;
  path : string
}.

Record request := {
  body : gmap string value;       (* req.body *)
  params : gmap string value;     (* req.params *)
  upload : option upload_part;    (* the file part sent, if any *)
  file : option multer_file       (* req.file *)
}.

Record response := {
  status : Z;
  json : value
}.

(** [res.status(c).json(v)], and [res.json(v)] with Express's default 200. *)
Definition res_status_json (c : Z) (v : value) : response := {| status := c; json := v |}.
Definition res_json (v : value) : response := res_status_json 200 v.

Definition error_body (msg : string) : value := VObj {[ "error" := VStr msg ]}.
Definition message_body (msg : string) : value := VObj {[ "message" := VStr msg ]}.

(** [req.body.k] read by destructuring: [undefined] when absent. *)
Definition field (req : request) (k : string) : value :=
  default VUndefined (body req !! k).

(** ** multer configuration (lines 13-32) *)

Module storage.
(** [destination: cb(null, 'uploads/')]. *)
Definition destination : string := "uploads/".
(** [filename: cb(null, `${Date.now()}_${file.originalname}`)]. *)
Definition filename (now : Z) (f : upload_part) : string :=
  pretty now +:+ "_" +:+ part_originalname f.
End storage.

Definition filetypes : regex := ["jpeg"; "jpg"; "png"; "gif"].

Definition invalid_file_type : string :=
  "Invalid file type. Only JPEG, PNG, and GIF are allowed.".

(** [fileFilter]: [inr true] is [cb(null, true)], [inl msg] is
    [cb(new Error(msg))]. *)
Definition fileFilter (f : upload_part) : string + bool :=
  let mimetype := regex_test filetypes (part_mimetype f) in
  if mimetype then inr true else inl invalid_file_type.

(** ** The SQL statements of the source *)

Inductive table := users | institutions | faculties | courses | applications.

(** One [?] of a statement's text. *)
Inductive placeholder := Q.

(** An item of a select list: [a.c] (shown under the name [c]),
    [a.c AS n], or ['text' AS n]. *)
Inductive select_item :=
| Column (tbl_alias column as_name : string)
| Literal (text as_name : string).

Inductive stmt :=
| SELECT_star (t : table)
| SELECT_star_WHERE (t : table) (column : string) (v : placeholder)
| SELECT_columns (columns : list string) (t : table)
| SELECT_JOIN (items : list select_item)
              (t1 : table) (alias1 : string) (t2 : table) (alias2 : string)
              (on1 on2 : string)   (* ON alias1.on1 = alias2.on2 *)
| INSERT_INTO (t : table) (columns : list string) (values : list placeholder)
| DELETE_WHERE (t : table) (column : string) (v : placeholder).

(** Line 63. *)
Definition sql_get_users := SELECT_star users.
(** Line 75. *)
Definition sql_get_institutions := SELECT_star institutions.
(** Line 93. *)
Definition sql_register :=
  INSERT_INTO users ["name"; "email"; "password"; "user_type"; "profile_picture"]
              [Q; Q; Q; Q; Q].
(** Line 112. *)
Definition sql_login := SELECT_star_WHERE users "email" Q.
(** Line 151. *)
Definition sql_add_institution :=
  INSERT_INTO institutions
              ["name"; "number_of_students"; "number_of_departments";
               "number_of_courses"; "logo"]
              [Q; Q; Q; Q; Q].
(** Line 179. *)
Definition sql_get_university :=
  SELECT_columns ["id"; "name"; "number_of_students"; "number_of_departments";
                  "number_of_courses"; "logo"] institutions.
(** Line 197. *)
Definition sql_add_faculty := INSERT_INTO faculties ["name"; "institution_id"] [Q; Q].
(** Line 216. *)
Definition sql_add_course :=
  INSERT_INTO courses ["name"; "faculty_id"; "institution_id"] [Q; Q; Q].
(** Lines 230-238. *)
Definition requirements_text : string := "High School Diploma, Pass in relevant subjects".
Definition sql_get_courses :=
  SELECT_JOIN [Column "c" "id" "id";
               Column "c" "name" "name";
               Column "i" "name" "university";
               Literal requirements_text "requirements"]
              courses "c" institutions "i" "institution_id" "id".
(** Line 249. *)
Definition sql_get_faculties := SELECT_columns ["id"; "name"; "institution_id"] faculties.
(** Line 263. *)
Definition sql_delete_institution := DELETE_WHERE institutions "id" Q.
(** Lines 310-329: twenty-three columns, and the twenty [?] of line 328. *)
Definition sqlQuery :=
  INSERT_INTO applications
              ["student_name";
               "phone_number";
               "student_id";
               "university";
               "course_id";
               "faculty";
               "major_subject";
               "subject1"; "grade1";
               "subject2"; "grade2";
               "subject3"; "grade3";
               "subject4"; "grade4";
               "subject5"; "grade5";
               "subject6"; "grade6";
               "subject7"; "grade7";
               "subject8"; "grade8"]
              [Q; Q; Q; Q; Q; Q; Q; Q; Q; Q; Q; Q; Q; Q; Q; Q; Q; Q; Q; Q].

(** ** The database *)

(** A row is what the driver returns for it: an object from column names
    to values.  Every table has an auto-increment key [id] (the handlers
    read [insertId] and [user.id]); the rest of the schema is not part of
    the repository. *)
Record table_data := {
  rows : list (gmap string value);
  next_id : Z
}.

Record database := {
  db_users : table_data;
  db_institutions : table_data;
  db_faculties : table_data;
  db_courses : table_data;
  db_applications : table_data
}.

Definition get_table (db : database) (t : table) : table_data :=
  match t with
  | users => db_users db
  | institutions => db_institutions db
  | faculties => db_faculties db
  | courses => db_courses db
  | applications => db_applications db
  end.

Definition set_table (db : database) (t : table) (d : table_data) : database :=
  match t with
  | users => {| db_users := d; db_institutions := db_institutions db;
                db_faculties := db_faculties db; db_courses := db_courses db;
                db_applications := db_applications db |}
  | institutions => {| db_users := db_users db; db_institutions := d;
                       db_faculties := db_faculties db; db_courses := db_courses db;
                       db_applications := db_applications db |}
  | faculties => {| db_users := db_users db; db_institutions := db_institutions db;
                    db_faculties := d; db_courses := db_courses db;
                    db_applications := db_applications db |}
  | courses => {| db_users := db_users db; db_institutions := db_institutions db;
                  db_faculties := db_faculties db; db_courses := d;
                  db_applications := db_applications db |}
  | applications => {| db_users := db_users db; db_institutions := db_institutions db;
                       db_faculties := db_faculties db; db_courses := db_courses db;
                       db_applications := d |}
  end.

Inductive db_error :=
| ER_PARSE_ERROR                 (* a [?] left without a value *)
| ER_WRONG_VALUE_COUNT_ON_ROW    (* column count and value count differ *)
| ER_OTHER (code : string).      (* connection lost, constraint violated, ... *)

(** The result of [query]: the rows of a SELECT, or the OkPacket of an
    INSERT or DELETE. *)
Inductive qresult :=
| Rows (data : list (gmap string value))
| OkPacket (affectedRows : Z) (insertId : Z).

(** A column of a row as SQL sees it: NULL when unset. *)
Definition col (r : gmap string value) (c : string) : value := default VNull (r !! c).

(** The driver writes [undefined] as NULL. *)
Definition to_sql (v : value) : value :=
  match v with VUndefined => VNull | _ => v end.

(** A value the driver writes as one SQL literal: not an array, not an
    object.  And a string, the only kind of value a text column gives back
    as it was sent. *)
Definition is_scalar (v : value) : bool :=
  match v with VArr _ | VObj _ => false | _ => true end.

Definition is_string (v : value) : bool :=
  match v with VStr _ => true | _ => false end.

(** The driver replaces the i-th [?] by the i-th parameter and ignores
    parameters beyond the last [?]; the server then pairs the i-th column
    with the i-th value.  [None] when some [?] has no parameter.

    This is the driver on scalar parameters.  It writes an array
    parameter as the comma-separated list of its elements and an object as
    [`key` = value] pairs, so that one [?] can then stand for several
    values or for an expression; those two forms are not interpreted
    here.  The properties below that say which value a field of the
    request is stored as, or that a statement with such fields succeeds,
    are stated for scalar (or string) fields. *)
Definition bind_values (values : list placeholder) (ps : list value) : option (list value) :=
  if decide (length values ≤ length ps)%nat
  then Some (to_sql <$> take (length values) ps)
  else None.

Definition bind_columns (columns : list string) (vals : list value) : gmap string value :=
  list_to_map (zip columns vals).

Definition select_row (items : list select_item) (alias1 : string)
    (r1 r2 : gmap string value) : gmap string value :=
  foldl (fun out it =>
           match it with
           | Column a c n => <[n := col (if String.eqb a alias1 then r1 else r2) c]> out
           | Literal text n => <[n := VStr text]> out
           end) ∅ items.

Definition project (columns : list string) (r : gmap string value) : gmap string value :=
  list_to_map ((fun c => (c, col r c)) <$> columns).

(** ** Handlers as computations *)

(** What an [await] can throw or a middleware can pass to [next]: a
    rejected [query], the error of multer, a rejected bcrypt call, the
    error of the JSON body parser. *)
Inductive exn :=
| DbError (e : db_error)
| UploadError (msg : string)
| BcryptError
| BodyParseError.

(** The state a request runs against: the database, the statements sent to
    it so far, the files written under the upload directory, and the lines
    of [console.error]. *)
Record world := {
  w_db : database;
  w_log : list (stmt * list value);
  w_disk : list string;
  w_console : list exn
}.

(** An [async] body: it ends with a value ([inr]) or with a thrown error
    ([inl]), and leaves a new state either way. *)
Definition M (A : Type) : Type := world -> (exn + A) * world.

#[global] Instance M_ret : MRet M := fun A a w => (inr a, w).

#[global] Instance M_bind : MBind M := fun A B f m w =>
  match m w with
  | (inl e, w') => (inl e, w')
  | (inr a, w') => f a w'
  end.

Definition throw {A} (e : exn) : M A := fun w => (inl e, w).

(** [try { m } catch (err) { h err }]. *)
Definition try_catch {A} (m : M A) (h : exn -> M A) : M A := fun w =>
  match m w with
  | (inl e, w') => h e w'
  | (inr a, w') => (inr a, w')
  end.

Definition console_error (e : exn) : M unit := fun w =>
  (inr tt, {| w_db := w_db w; w_log := w_log w; w_disk := w_disk w;
              w_console := w_console w ++ [e] |}).

Definition write_file (p : string) : M unit := fun w =>
  (inr tt, {| w_db := w_db w; w_log := w_log w; w_disk := w_disk w ++ [p];
              w_console := w_console w |}).

(** [data.length], [data[0]] of a result. *)
Definition data_of (r : qresult) : list (gmap string value) :=
  match r with Rows d => d | OkPacket _ _ => [] end.

(** [result.affectedRows], with 0 where the property is absent (the
    source only tests [> 0], false for [undefined] as for 0). *)
Definition affectedRows_of (r : qresult) : Z :=
  match r with OkPacket n _ => n | Rows _ => 0 end.

(** [result.insertId]. *)
Definition insertId_of (r : qresult) : value :=
  match r with OkPacket _ i => js_number i | Rows _ => VUndefined end.

(** A result as the value [res.json] is given (of an OkPacket, the two
    properties the handlers read). *)
Definition result_value (r : qresult) : value :=
  match r with
  | Rows d => VArr (VObj <$> d)
  | OkPacket n i => VObj {[ "affectedRows" := js_number n; "insertId" := js_number i ]}
  end.

(** What reaches the routes: a request whose body (if any) was parsed, or
    one whose JSON body the parser of line 11 refused. *)
Inductive arrival :=
| Parsed (req : request)
| Unparsable.

Inductive route :=
| GET_users | GET_institutions | POST_register | POST_login | POST_institutions
| GET_university | POST_faculties | POST_courses | GET_courses | GET_faculties
| DELETE_institutions_id | POST_applications | GET_root.

(** ** A concrete environment

    One behaviour of what lies outside the repository, and a few requests
    and database states; the properties below are instantiated on them. *)
Module Sample.

(** Equality of two strings or of two numbers. *)
Definition sql_eq (a b : value) : bool :=
  match a, b with
  | VStr s, VStr t => String.eqb s t
  | VNum x, VNum y => PrimFloat.eqb x y
  | _, _ => false
  end.

Definition no_fault (s : stmt) (ps : list value) (db : database) : option db_error := None.

Definition connection_lost (s : stmt) (ps : list value) (db : database) : option db_error :=
  Some (ER_OTHER "PROTOCOL_CONNECTION_LOST").

(** A stand-in for bcrypt that keeps its interface: strings only, the
    cost in the result. *)
Definition bcrypt_hash (data : value) (rounds : Z) : option string :=
  match data with
  | VStr s => Some ("$2b$" +:+ pretty rounds +:+ "$" +:+ s)
  | _ => None
  end.

Definition bcrypt_compare (data hashed : value) : option bool :=
  match data, hashed with
  | VStr s, VStr h => Some (String.eqb h ("$2b$10$" +:+ s))
  | _, _ => None
  end.

Definition empty_table : table_data := {| rows := []; next_id := 1 |}.

Definition ada : gmap string value :=
  {[ "id" := js_number 1;
     "name" := VStr "Ada";
     "email" := VStr "ada@example.org";
     "password" := VStr "$2b$10$lovelace";
     "user_type" := VStr "student";
     "profile_picture" := VStr "uploads/1_ada.png" ]}.

(** Ada after a change of password. *)
Definition ada' : gmap string value := <["password" := VStr "$2b$10$byron"]> ada.

Definition uni : gmap string value :=
  {[ "id" := js_number 1;
     "name" := VStr "NUL";
     "number_of_students" := VStr "9000";
     "number_of_departments" := VStr "40";
     "number_of_courses" := VStr "120";
     "logo" := VStr "uploads/2_nul.png" ]}.

Definition law : gmap string value :=
  {[ "id" := js_number 1;
     "name" := VStr "Law";
     "faculty_id" := js_number 1;
     "institution_id" := js_number 1;
     "requirements" := VStr "none" ]}.

Definition db0 : database :=
  {| db_users := empty_table; db_institutions := empty_table;
     db_faculties := empty_table; db_courses := empty_table;
     db_applications := empty_table |}.

Definition db1 : database :=
  {| db_users := {| rows := [ada]; next_id := 2 |};
     db_institutions := {| rows := [uni]; next_id := 2 |};
     db_faculties := empty_table;
     db_courses := {| rows := [law]; next_id := 2 |};
     db_applications := empty_table |}.

Definition db1' : database :=
  {| db_users := {| rows := [ada']; next_id := 2 |};
     db_institutions := {| rows := [uni]; next_id := 2 |};
     db_faculties := empty_table;
     db_courses := {| rows := [law]; next_id := 2 |};
     db_applications := empty_table |}.

Definition world_of (db : database) : world :=
  {| w_db := db; w_log := []; w_disk := []; w_console := [] |}.

Definition json_request (b : gmap string value) : request :=
  {| body := b; params := ∅; upload := None; file := None |}.

Definition form_request (b : gmap string value) (f : upload_part) : request :=
  {| body := b; params := ∅; upload := Some f; file := None |}.

Definition picture : upload_part :=
  {| part_fieldname := "profilePicture"; part_originalname := "ada.png";
     part_mimetype := "image/png" |}.

Definition logo : upload_part :=
  {| part_fieldname := "logo"; part_originalname := "nul.gif";
     part_mimetype := "image/gif" |}.

(** A part whose declared type is no image type. *)
Definition script : upload_part :=
  {| part_fieldname := "logo"; part_originalname := "run.sh";
     part_mimetype := "application/x-gift-script" |}.

Definition register_body : gmap string value :=
  {[ "name" := VStr "Ada"; "email" := VStr "ada@example.org";
     "password" := VStr "lovelace"; "user_type" := VStr "student" ]}.

Definition institution_body : gmap string value :=
  {[ "name" := VStr "NUL"; "number_of_students" := VStr "9000";
     "number_of_departments" := VStr "40"; "number_of_courses" := VStr "120" ]}.

(** [picture] as multer stores it at time 1700000000000, and the
    registration request the handler then sees. *)
Definition stored_picture : multer_file :=
  {| fieldname := "profilePicture"; originalname := "ada.png";
     mimetype := "image/png"; destination := "uploads/";
     filename := "1700000000000_ada.png";
     path := "uploads/1700000000000_ada.png" |}.

Definition register_request : request :=
  {| body := register_body; params := ∅; upload := Some picture;
     file := Some stored_picture |}.

Definition stored_logo : multer_file :=
  {| fieldname := "logo"; originalname := "nul.gif";
     mimetype := "image/gif"; destination := "uploads/";
     filename := "1700000000000_nul.gif";
     path := "uploads/1700000000000_nul.gif" |}.

(** An institution form that gives 0 as its number of students. *)
Definition institution_no_students : request :=
  {| body := <["number_of_students" := VNum 0%float]> institution_body;
     params := ∅; upload := Some logo; file := Some stored_logo |}.

Definition login_ada : request :=
  json_request {[ "email" := VStr "ada@example.org"; "password" := VStr "lovelace" ]}.

Definition login_wrong_password : request :=
  json_request {[ "email" := VStr "ada@example.org"; "password" := VStr "byron" ]}.

Definition login_unknown : request :=
  json_request {[ "email" := VStr "bob@example.org"; "password" := VStr "byron" ]}.

Definition delete_42 : request :=
  {| body := ∅; params := {[ "id" := VStr "42" ]}; upload := None; file := None |}.

(** An application with one subject/grade pair. *)
Definition application : request :=
  json_request
    {[ "studentName" := VStr "Ada";
       "phoneNumber" := VStr "5550100";
       "student_id" := VStr "S1";
       "university" := VStr "NUL";
       "course_id" := VStr "1";
       "faculty" := VStr "Law";
       "majorSubject" := VStr "Maths";
       "grades" := VArr [VObj {[ "subject" := VStr "Maths"; "grade" := VStr "A" ]}] ]}.

(** The response to [login_ada]. *)
Definition ada_logged_in : response :=
  res_status_json 200 (VObj {[
    "message" := VStr "Login successful";
    "user" := VObj {[
      "id" := js_number 1;
      "user_type" := VStr "student";
      "name" := VStr "Ada";
      "email" := VStr "ada@example.org";
      "profile_picture" := VStr "uploads/1_ada.png" ]} ]}).

(** The only row of the course listing over [db1]. *)
Definition law_listed : gmap string value :=
  {[ "id" := js_number 1;
     "name" := VStr "Law";
     "university" := VStr "NUL";
     "requirements" := VStr "High School Diploma, Pass in relevant subjects" ]}.

(** An institution kept under a textual key, and the request that deletes
    it. *)
Definition college : gmap string value :=
  {[ "id" := VStr "c7";
     "name" := VStr "City College";
     "number_of_students" := VStr "800";
     "number_of_departments" := VStr "6";
     "number_of_courses" := VStr "30";
     "logo" := VStr "uploads/3_cc.png" ]}.

Definition db2 : database :=
  {| db_users := empty_table;
     db_institutions := {| rows := [uni; college]; next_id := 3 |};
     db_faculties := empty_table;
     db_courses := {| rows := [law]; next_id := 2 |};
     db_applications := empty_table |}.

Definition delete_c7 : request :=
  {| body := ∅; params := {[ "id" := VStr "c7" ]}; upload := None; file := None |}.

(** Two users with Ada's address. *)
Definition db3 : database :=
  {| db_users := {| rows := [ada; ada']; next_id := 3 |};
     db_institutions := empty_table;
     db_faculties := empty_table;
     db_courses := empty_table;
     db_applications := empty_table |}.

(** A registration and a login whose password is a number. *)
Definition register_number_password : request :=
  {| body := <["password" := VNum 5%float]> register_body; params := ∅;
     upload := Some picture; file := Some stored_picture |}.

Definition login_number_password : request :=
  json_request {[ "email" := VStr "ada@example.org"; "password" := VNum 5%float ]}.


(** The number a string of decimal digits writes. *)
Fixpoint digits_value (acc : Z) (s : string) : option Z :=
  match s with
  | EmptyString => Some acc
  | String c rest =>
    let d := Z.of_nat (nat_of_ascii c) - 48 in
    if ((0 <=? d) && (d <=? 9))%Z then digits_value (10 * acc + d) rest else None
  end.

Definition number_of_string (s : string) : option value :=
  match s with
  | EmptyString => None
  | _ => js_number <$> digits_value 0 s
  end.

(** Equality as between an integer column and a parameter sent as text: a
    string of digits equals the number it writes. *)
Definition sql_eq_coercing (a b : value) : bool :=
  match a, b with
  | VNum x, VStr s => from_option (sql_eq (VNum x)) false (number_of_string s)
  | VStr s, VNum y => from_option (fun n => sql_eq n (VNum y)) false (number_of_string s)
  | _, _ => sql_eq a b
  end.

(** The request that deletes the institution of [db1], to which the course
    [law] belongs. *)
Definition delete_1 : request :=
  {| body := ∅; params := {[ "id" := VStr "1" ]}; upload := None; file := None |}.

Definition notes : upload_part :=
  {| part_fieldname := "logo"; part_originalname := "notes.txt";
     part_mimetype := "text/plain" |}.


End Sample.

Section Server.

(** MySQL's [=] under the columns' types and collations (not part of the
    repository). *)
Variable sql_eq : value -> value -> bool.

(** Failures the statement alone does not decide: a lost connection, a
    constraint of the schema. *)
Variable fault : stmt -> list value -> database -> option db_error.

(** [bcrypt.hash(data, rounds)] and [bcrypt.compare(data, hash)] as they
    resolve during the request ([None]: the promise is rejected).  The
    salt bcrypt draws is part of this function. *)
Variable bcrypt_hash : value -> Z -> option string.
Variable bcrypt_compare : value -> value -> option bool.

(** The server's side of one statement. *)
Definition exec (s : stmt) (ps : list value) (db : database)
    : (db_error + qresult) * database :=
  match fault s ps db with
  | Some e => (inl e, db)
  | None =>
    match s with
    | SELECT_star t => (inr (Rows (rows (get_table db t))), db)
    | SELECT_star_WHERE t c Q =>
      match ps with
      | [] => (inl ER_PARSE_ERROR, db)
      | p :: _ =>
        (inr (Rows (filter (fun r => sql_eq (col r c) (to_sql p)) (rows (get_table db t)))), db)
      end
    | SELECT_columns cs t => (inr (Rows (project cs <$> rows (get_table db t))), db)
    | SELECT_JOIN items t1 a1 t2 a2 on1 on2 =>
      (inr (Rows (r1 ← rows (get_table db t1);
                  select_row items a1 r1 <$>
                    filter (fun r2 => sql_eq (col r1 on1) (col r2 on2))
                           (rows (get_table db t2)))), db)
    | INSERT_INTO t cs vs =>
      match bind_values vs ps with
      | None => (inl ER_PARSE_ERROR, db)
      | Some vals =>
        if decide (length cs = length vals) then
          let d := get_table db t in
          let r := <["id" := js_number (next_id d)]> (bind_columns cs vals) in
          (inr (OkPacket 1 (next_id d)),
           set_table db t {| rows := rows d ++ [r]; next_id := next_id d + 1 |})
        else (inl ER_WRONG_VALUE_COUNT_ON_ROW, db)
      end
    | DELETE_WHERE t c Q =>
      match ps with
      | [] => (inl ER_PARSE_ERROR, db)
      | p :: _ =>
        let d := get_table db t in
        let kept := filter (fun r => ¬ sql_eq (col r c) (to_sql p)) (rows d) in
        (inr (OkPacket (Z.of_nat (length (rows d)) - Z.of_nat (length kept)) 0),
         set_table db t {| rows := kept; next_id := next_id d |})
      end
    end
  end.

(** [query = promisify(db.query).bind(db)] (line 52). *)
Definition query (sql : stmt) (ps : list value) : M qresult := fun w =>
  let '(r, db') := exec sql ps (w_db w) in
  (match r with inl e => inl (DbError e) | inr x => inr x end,
   {| w_db := db'; w_log := w_log w ++ [(sql, ps)]; w_disk := w_disk w;
      w_console := w_console w |}).

Definition hash (data : value) (rounds : Z) : M string := fun w =>
  match bcrypt_hash data rounds with
  | Some h => (inr h, w)
  | None => (inl BcryptError, w)
  end.

Definition compare (data hashed : value) : M bool := fun w =>
  match bcrypt_compare data hashed with
  | Some b => (inr b, w)
  | None => (inl BcryptError, w)
  end.

(** *** multer middleware: [upload.single(name)] *)

(** The part is checked by [fileFilter] and, when accepted, written by
    the disk storage under [path.join(destination, filename)], which is
    their concatenation for a file name without a path separator (busboy
    reports the base name).  An error goes to [next(err)]; without a file
    part the request passes unchanged. *)
Definition upload_single (name : string) (now : Z) (req : request) : M request :=
  match upload req with
  | None => mret req
  | Some f =>
    if String.eqb (part_fieldname f) name then
      match fileFilter f with
      | inl msg => throw (UploadError msg)
      | inr false => mret req
      | inr true =>
        let fn := storage.filename now f in
        let p := storage.destination +:+ fn in
        _ ← write_file p;
        mret {| body := body req; params := params req; upload := upload req;
                file := Some {| fieldname := part_fieldname f;
                                originalname := part_originalname f;
                                mimetype := part_mimetype f;
                                destination := storage.destination;
                                filename := fn;
                                path := p |} |}
      end
    else throw (UploadError "Unexpected field")
  end.

(** [!req.file] and [req.file.path]. *)
Definition no_file (req : request) : bool :=
  match file req with Some _ => false | None => true end.
Definition file_path (req : request) : value :=
  match file req with Some f => VStr (path f) | None => VUndefined end.

(** *** The route handlers, in the order of the source *)

(** Lines 61-70. *)
Definition get_users (req : request) : M response :=
  try_catch
    (data ← query sql_get_users [];
     mret (res_json (result_value data)))
    (fun err =>
       _ ← console_error err;
       mret (res_status_json 500 (error_body "Database error while fetching users."))).

(** Lines 73-82. *)
Definition get_institutions (req : request) : M response :=
  try_catch
    (data ← query sql_get_institutions [];
     mret (res_json (result_value data)))
    (fun err =>
       _ ← console_error err;
       mret (res_status_json 500 (error_body "Database error while fetching institutions."))).

(** Lines 85-102. *)
Definition post_register (req : request) : M response :=
  let name := field req "name" in
  let email := field req "email" in
  let password := field req "password" in
  let user_type := field req "user_type" in
  if negb (truthy name) || negb (truthy email) || negb (truthy password)
     || negb (truthy user_type) || no_file req
  then mret (res_status_json 400 (error_body
         "Please provide name, email, password, user_type, and a profile picture."))
  else
    hashedPassword ← hash password 10;
    try_catch
      (_ ← query sql_register [name; email; VStr hashedPassword; user_type; file_path req];
       mret (res_status_json 201 (message_body "User registered successfully.")))
      (fun err =>
         _ ← console_error err;
         mret (res_status_json 500 (error_body "Database error during registration."))).

(** Lines 105-140. *)
Definition post_login (req : request) : M response :=
  let email := field req "email" in
  let password := field req "password" in
  if negb (truthy email) || negb (truthy password)
  then mret (res_status_json 400 (error_body "Please provide both email and password."))
  else
    try_catch
      (data ← query sql_login [email];
       match data_of data with
       | user :: _ =>
         isPasswordValid ← compare password (get_prop (VObj user) "password");
         if (isPasswordValid : bool) then
           mret (res_status_json 200 (VObj {[
             "message" := VStr "Login successful";
             "user" := VObj {[
               "id" := get_prop (VObj user) "id";
               "user_type" := get_prop (VObj user) "user_type";
               "name" := get_prop (VObj user) "name";
               "email" := get_prop (VObj user) "email";
               "profile_picture" := get_prop (VObj user) "profile_picture" ]} ]}))
         else
           mret (res_status_json 401 (error_body "Invalid email or password."))
       | [] =>
         mret (res_status_json 401 (error_body "Invalid email or password."))
       end)
      (fun err =>
         _ ← console_error err;
         mret (res_status_json 500 (error_body "Database query error."))).

(** Lines 143-175. *)
Definition post_institutions (req : request) : M response :=
  let name := field req "name" in
  let number_of_students := field req "number_of_students" in
  let number_of_departments := field req "number_of_departments" in
  let number_of_courses := field req "number_of_courses" in
  if negb (truthy name) || negb (truthy number_of_students)
     || negb (truthy number_of_departments) || negb (truthy number_of_courses)
     || no_file req
  then mret (res_status_json 400 (error_body "Please provide all required fields and a logo."))
  else
    try_catch
      (result ← query sql_add_institution
                  [name; number_of_students; number_of_departments; number_of_courses;
                   file_path req];
       if (0 <? affectedRows_of result)%Z then
         mret (res_status_json 201 (VObj {[
           "message" := VStr "Institution added successfully.";
           "institution" := VObj {[
             "id" := insertId_of result;
             "name" := name;
             "number_of_students" := number_of_students;
             "number_of_departments" := number_of_departments;
             "number_of_courses" := number_of_courses;
             "logo" := file_path req ]} ]}))
       else
         mret (res_status_json 500 (error_body "Failed to add institution.")))
      (fun err =>
         _ ← console_error err;
         mret (res_status_json 500 (error_body "Database error during adding institution."))).

(** Lines 178-187. *)
Definition get_university (req : request) : M response :=
  try_catch
    (results ← query sql_get_university [];
     mret (res_json (result_value results)))
    (fun err =>
       _ ← console_error err;
       mret (res_status_json 500 (error_body "Database error while fetching universities."))).

(** Lines 190-206. *)
Definition post_faculties (req : request) : M response :=
  let name := field req "name" in
  let institution_id := field req "institution_id" in
  if negb (truthy name) || negb (truthy institution_id)
  then mret (res_status_json 400 (error_body "Please provide both name and institution."))
  else
    try_catch
      (_ ← query sql_add_faculty [name; institution_id];
       mret (res_status_json 201 (message_body "Faculty added successfully.")))
      (fun err =>
         _ ← console_error err;
         mret (res_status_json 500 (error_body "Database error during adding faculty."))).

(** Lines 209-225. *)
Definition post_courses (req : request) : M response :=
  let name := field req "name" in
  let faculty := field req "faculty" in
  let institution := field req "institution" in
  if negb (truthy name) || negb (truthy faculty) || negb (truthy institution)
  then mret (res_status_json 400 (error_body "Please provide name, faculty, and institution."))
  else
    try_catch
      (_ ← query sql_add_course [name; faculty; institution];
       mret (res_status_json 201 (message_body "Course added successfully.")))
      (fun err =>
         _ ← console_error err;
         mret (res_status_json 500 (error_body "Database error during adding course."))).

(** Lines 228-245. *)
Definition get_courses (req : request) : M response :=
  try_catch
    (data ← query sql_get_courses [];
     mret (res_json (result_value data)))
    (fun err =>
       _ ← console_error err;
       mret (res_status_json 500 (error_body "Database error while fetching courses."))).

(** Lines 248-257. *)
Definition get_faculties (req : request) : M response :=
  try_catch
    (results ← query sql_get_faculties [];
     mret (res_json (result_value results)))
    (fun err =>
       _ ← console_error err;
       mret (res_status_json 500 (error_body "Database error while fetching faculties."))).

(** Lines 260-276. *)
Definition delete_institution (req : request) : M response :=
  let institutionId := default VUndefined (params req !! "id") in
  try_catch
    (result ← query sql_delete_institution [institutionId];
     if (0 <? affectedRows_of result)%Z then
       mret (res_status_json 200 (message_body "Institution deleted successfully."))
     else
       mret (res_status_json 404 (error_body "Institution not found.")))
    (fun err =>
       _ ← console_error err;
       mret (res_status_json 500 (error_body "Database error during deleting institution."))).

(** Lines 296-307: the loop that fills [subjects] and [gradesValues]. *)
Definition collect_grades (grades : value) : list value * list value :=
  foldl (fun '(subjects, gradesValues) i =>
           if truthy (get_index grades i) then
             (subjects ++ [js_or (get_prop (get_index grades i) "subject") (VStr "")],
              gradesValues ++ [js_or (get_prop (get_index grades i) "grade") (VStr "")])
           else
             (subjects ++ [VStr ""], gradesValues ++ [VStr ""]))
        ([], []) (seq 0 8).

(** Lines 331-341. *)
Definition application_params (req : request) : list value :=
  let '(subjects, gradesValues) := collect_grades (field req "grades") in
  [field req "studentName";
   field req "phoneNumber";
   field req "student_id";
   field req "university";
   field req "course_id";
   field req "faculty";
   field req "majorSubject"]
  ++ ((fun subject => js_or subject (VStr "")) <$> subjects)
  ++ ((fun grade => js_or grade (VStr "")) <$> gradesValues).

(** Lines 279-350. *)
Definition post_applications (req : request) : M response :=
  let studentName := field req "studentName" in
  let phoneNumber := field req "phoneNumber" in
  let student_id := field req "student_id" in
  let university := field req "university" in
  let course_id := field req "course_id" in
  let faculty := field req "faculty" in
  let majorSubject := field req "majorSubject" in
  let grades := field req "grades" in
  if negb (truthy studentName) || negb (truthy phoneNumber) || negb (truthy student_id)
     || negb (truthy university) || negb (truthy course_id) || negb (truthy faculty)
     || negb (truthy majorSubject) || negb (truthy grades)
  then mret (res_status_json 400 (error_body "All fields are required."))
  else
    let params := application_params req in
    try_catch
      (result ← query sqlQuery params;
       mret (res_status_json 201 (VObj {[
         "message" := VStr "Application submitted successfully";
         "applicationId" := insertId_of result ]})))
      (fun err =>
         _ ← console_error err;
         mret (res_status_json 500 (error_body "Database error during application submission."))).

(** Lines 354-356. *)
Definition get_root (req : request) : M response :=
  mret (res_json (VStr "Server is running.")).

(** *** Routing *)

Definition handle (rt : route) : request -> M response :=
  match rt with
  | GET_users => get_users
  | GET_institutions => get_institutions
  | POST_register => post_register
  | POST_login => post_login
  | POST_institutions => post_institutions
  | GET_university => get_university
  | POST_faculties => post_faculties
  | POST_courses => post_courses
  | GET_courses => get_courses
  | GET_faculties => get_faculties
  | DELETE_institutions_id => delete_institution
  | POST_applications => post_applications
  | GET_root => get_root
  end.

(** The middleware a route names before its handler (lines 85 and 143). *)
Definition middleware (rt : route) (now : Z) : request -> M request :=
  match rt with
  | POST_register => upload_single "profilePicture" now
  | POST_institutions => upload_single "logo" now
  | _ => mret
  end.

(** A request through a route: it arrives without [req.file], passes the
    middleware, then the handler.  A thrown error ([inl]) means the
    route's own code sent no response: the error is Express's to report. *)
Definition incoming (req : request) : request :=
  {| body := body req; params := params req; upload := upload req; file := None |}.

Definition serve (rt : route) (now : Z) (req : request) : M response :=
  req' ← middleware rt now (incoming req);
  handle rt req'.

(** Lines 55-58.  The error middleware is registered after the body
    parser and before every route: Express hands it the errors of the
    former only.  An error of a route goes to Express's own final
    handler, which is not part of the repository. *)
Definition error_middleware (err : exn) : M response :=
  _ ← console_error err;
  mret (res_status_json 500 (error_body "Something went wrong!")).

Definition app (rt : route) (now : Z) (a : arrival) : M response :=
  match a with
  | Unparsable => error_middleware BodyParseError
  | Parsed req => serve rt now req
  end.

(** The fields each POST handler tests before it touches the database,
    and whether it also tests [req.file]. *)
Definition required_fields (rt : route) : list string :=
  match rt with
  | POST_register => ["name"; "email"; "password"; "user_type"]
  | POST_login => ["email"; "password"]
  | POST_institutions =>
    ["name"; "number_of_students"; "number_of_departments"; "number_of_courses"]
  | POST_faculties => ["name"; "institution_id"]
  | POST_courses => ["name"; "faculty"; "institution"]
  | POST_applications =>
    ["studentName"; "phoneNumber"; "student_id"; "university"; "course_id";
     "faculty"; "majorSubject"; "grades"]
  | _ => []
  end.

Definition requires_file (rt : route) : bool :=
  match rt with
  | POST_register | POST_institutions => true
  | _ => false
  end.

(** The message of each POST handler's 400 response. *)
Definition missing_message (rt : route) : string :=
  match rt with
  | POST_register =>
    "Please provide name, email, password, user_type, and a profile picture."
  | POST_login => "Please provide both email and password."
  | POST_institutions => "Please provide all required fields and a logo."
  | POST_faculties => "Please provide both name and institution."
  | POST_courses => "Please provide name, faculty, and institution."
  | POST_applications => "All fields are required."
  | _ => ""
  end.

(** The presence test of a POST handler, as one expression: some
    required field is falsy, or the required file is absent. *)
Definition incomplete (rt : route) (req : request) : bool :=
  existsb (fun k => negb (truthy (field req k))) (required_fields rt)
  || (requires_file rt && no_file req).

(** [req] with another body. *)
Definition with_body (req : request) (b : gmap string value) : request :=
  {| body := b; params := params req; upload := upload req; file := file req |}.

(** The rows [sql_login] selects for an e-mail address. *)
Definition users_with_email (db : database) (email : value) : list (gmap string value) :=
  filter (fun r => sql_eq (col r "email") (to_sql email)) (rows (db_users db)).

(** For the two routes that take a file: the form field multer reads,
    and the table and column the handler writes the stored path to. *)
Definition upload_field (rt : route) : string :=
  match rt with POST_register => "profilePicture" | _ => "logo" end.
Definition file_table (rt : route) : table :=
  match rt with POST_register => users | _ => institutions end.
Definition file_column (rt : route) : string :=
  match rt with POST_register => "profile_picture" | _ => "logo" end.

(** The column list of an [INSERT]. *)
Definition insert_columns (s : stmt) : list string :=
  match s with INSERT_INTO _ cs _ => cs | _ => [] end.

(** What a response of a handler with an error status can be, and what
    has then happened: the four forms the handlers produce. *)
Definition error_forms (rt : route) (req : request) (w : world)
    (r : response) (w' : world) : Prop :=
  (status r = 200 \/ status r = 201 \/ status r = 400 \/ status r = 401
   \/ status r = 404 \/ status r = 500)
  /\ (400 <= status r -> exists msg, json r = error_body msg)
  /\ (status r = 400 -> incomplete rt req = true /\ w' = w)
  /\ (status r = 401 ->
      rt = POST_login
      /\ (users_with_email (w_db w) (field req "email") = []
          \/ exists user rest,
               users_with_email (w_db w) (field req "email") = user :: rest
               /\ bcrypt_compare (field req "password") (get_prop (VObj user) "password")
                  = Some false))
  /\ (status r = 404 ->
      rt = DELETE_institutions_id
      /\ Forall (fun row => ¬ sql_eq (col row "id")
                                (to_sql (default VUndefined (params req !! "id"))))
                (rows (db_institutions (w_db w))))
  /\ (status r = 500 ->
      (exists sql ps e,
          w_log w' = w_log w ++ [(sql, ps)]
          /\ exec sql ps (w_db w) = (inl e, w_db w'))
      \/ (rt = POST_login
          /\ exists user rest,
               users_with_email (w_db w) (field req "email") = user :: rest
               /\ bcrypt_compare (field req "password") (get_prop (VObj user) "password")
                  = None)).

(** The statement each route's handler sends ([GET /] sends none). *)
Definition route_statement (rt : route) : option stmt :=
  match rt with
  | GET_users => Some sql_get_users
  | GET_institutions => Some sql_get_institutions
  | POST_register => Some sql_register
  | POST_login => Some sql_login
  | POST_institutions => Some sql_add_institution
  | GET_university => Some sql_get_university
  | POST_faculties => Some sql_add_faculty
  | POST_courses => Some sql_add_course
  | GET_courses => Some sql_get_courses
  | GET_faculties => Some sql_get_faculties
  | DELETE_institutions_id => Some sql_delete_institution
  | POST_applications => Some sqlQuery
  | GET_root => None
  end.

(** [req.params.id] of [DELETE /institutions/:id], as the statement gets it. *)
Definition institution_id_param (req : request) : value :=
  to_sql (default VUndefined (params req !! "id")).

(** ** Presence checks *)

Ltac split_truthy :=
  repeat match goal with
         | |- context [truthy ?v] => destruct (truthy v)
         end.

Lemma incomplete_400 (rt : route) (req : request) (w : world) :
  incomplete rt req = true ->
  handle rt req w
  = (inr (res_status_json 400 (error_body (missing_message rt))), w).
Proof.
  unfold incomplete.
  destruct rt; cbn [required_fields requires_file existsb andb orb handle];
    try discriminate;
    [ unfold post_register | unfold post_login | unfold post_institutions
    | unfold post_faculties | unfold post_courses | unfold post_applications ];
    cbv zeta; destruct (no_file req); split_truthy;
    cbn [negb orb andb]; intros Hc; try discriminate Hc; reflexivity.
Qed.

Lemma falsy_incomplete (rt : route) (req : request) (k : string) :
  k ∈ required_fields rt -> truthy (field req k) = false -> incomplete rt req = true.
Proof.
  intros Hk Hf. unfold incomplete. apply orb_true_iff. left.
  apply existsb_exists. exists k. split.
  - by apply list_elem_of_In.
  - by rewrite Hf.
Qed.

Lemma no_file_incomplete (rt : route) (req : request) :
  requires_file rt = true -> file req = None -> incomplete rt req = true.
Proof.
  intros Hr Hf. unfold incomplete, no_file. rewrite Hr, Hf.
  apply orb_true_r.
Qed.

(** C6: a POST handler that finds a required field of the body, or the
    required file, absent answers 400 with its error message and leaves
    the whole state as it was: no statement is sent and the database is
    unchanged. *)
Theorem missing_field_rejected (rt : route) (req : request) (w : world) :
  (exists k, k ∈ required_fields rt /\ body req !! k = None)
  \/ (requires_file rt = true /\ file req = None) ->
  exists r w',
    handle rt req w = (inr r, w')
    /\ status r = 400
    /\ json r = error_body (missing_message rt)
    /\ w_log w' = w_log w
    /\ w_db w' = w_db w.
Proof.
  intros H.
  exists (res_status_json 400 (error_body (missing_message rt))), w.
  split; [| done].
  apply incomplete_400.
  destruct H as [(k & Hk & Hnone) | [Hr Hf]].
  - apply (falsy_incomplete rt req k Hk). unfold field. by rewrite Hnone.
  - by apply no_file_incomplete.
Qed.

(** C10: a required field that is present but equal to 0, to the empty
    string or to false is answered with the same 400 response, and the
    same untouched state, as the request without that field. *)
Theorem falsy_field_rejected (rt : route) (req : request) (k : string)
    (v : value) (w : world) :
  k ∈ required_fields rt ->
  body req !! k = Some v ->
  v = VNum 0%float \/ v = VStr "" \/ v = VBool false ->
  handle rt req w
  = (inr (res_status_json 400 (error_body (missing_message rt))), w)
  /\ handle rt req w = handle rt (with_body req (delete k (body req))) w.
Proof.
  intros Hk Hv Hfalsy.
  assert (Hreq : handle rt req w
                 = (inr (res_status_json 400 (error_body (missing_message rt))), w)).
  { apply incomplete_400, (falsy_incomplete rt req k Hk).
    unfold field. rewrite Hv.
    by destruct Hfalsy as [-> | [-> | ->]]. }
  split; [exact Hreq |].
  rewrite Hreq. symmetry.
  apply incomplete_400, (falsy_incomplete rt _ k Hk).
  unfold field, with_body. cbn [body].
  by rewrite lookup_delete_eq.
Qed.

(** ** Login *)

Ltac run_monad :=
  cbv [mbind M_bind mret M_ret try_catch query console_error hash compare throw
       write_file].

Lemma exec_sql_login (email : value) (db : database) :
  exec sql_login [email] db
  = match fault sql_login [email] db with
    | Some e => (inl e, db)
    | None => (inr (Rows (users_with_email db email)), db)
    end.
Proof. reflexivity. Qed.

Lemma post_login_complete (req : request) (w : world) :
  truthy (field req "email") = true ->
  truthy (field req "password") = true ->
  post_login req w
  = try_catch
      (data ← query sql_login [field req "email"];
       match data_of data with
       | user :: _ =>
         isPasswordValid ← compare (field req "password") (get_prop (VObj user) "password");
         if (isPasswordValid : bool) then
           mret (res_status_json 200 (VObj {[
             "message" := VStr "Login successful";
             "user" := VObj {[
               "id" := get_prop (VObj user) "id";
               "user_type" := get_prop (VObj user) "user_type";
               "name" := get_prop (VObj user) "name";
               "email" := get_prop (VObj user) "email";
               "profile_picture" := get_prop (VObj user) "profile_picture" ]} ]}))
         else
           mret (res_status_json 401 (error_body "Invalid email or password."))
       | [] =>
         mret (res_status_json 401 (error_body "Invalid email or password."))
       end)
      (fun err =>
         _ ← console_error err;
         mret (res_status_json 500 (error_body "Database query error."))) w.
Proof.
  intros He Hp. unfold post_login. cbv zeta. by rewrite He, Hp.
Qed.


Lemma post_login_200 (req : request) (w w' : world) (r : response) :
  post_login req w = (inr r, w') ->
  status r = 200 ->
  exists user rest,
    users_with_email (w_db w) (field req "email") = user :: rest
    /\ r = res_status_json 200 (VObj {[
             "message" := VStr "Login successful";
             "user" := VObj {[
               "id" := get_prop (VObj user) "id";
               "user_type" := get_prop (VObj user) "user_type";
               "name" := get_prop (VObj user) "name";
               "email" := get_prop (VObj user) "email";
               "profile_picture" := get_prop (VObj user) "profile_picture" ]} ]}).
Proof.
  intros Hrun Hst.
  destruct (truthy (field req "email")) eqn:He;
    [destruct (truthy (field req "password")) eqn:Hp |].
  - rewrite (post_login_complete req w He Hp) in Hrun.
    revert Hrun. run_monad. rewrite exec_sql_login.
    destruct (fault _ _ _); [intros [= <- _]; discriminate Hst |].
    cbn [data_of].
    destruct (users_with_email _ _) as [|user rest];
      [intros [= <- _]; discriminate Hst |].
    destruct (bcrypt_compare _ _) as [[|]|]; intros [= <- _];
      try discriminate Hst.
    by exists user, rest.
  - revert Hrun. unfold post_login. cbv zeta. rewrite He, Hp.
    intros [= <- _]. discriminate Hst.
  - revert Hrun. unfold post_login. cbv zeta. rewrite He.
    intros [= <- _]. discriminate Hst.
Qed.

(** C9: the [user] object of a successful login has exactly the fields
    id, user_type, name, email and profile_picture, each read from the
    selected row; a successful login against a row that differs from it
    in the password column only gets the identical response. *)
Theorem login_success_hides_password (req : request) (w w' : world) (r : response) :
  post_login req w = (inr r, w') ->
  status r = 200 ->
  exists user rest o,
    users_with_email (w_db w) (field req "email") = user :: rest
    /\ json r = VObj {[ "message" := VStr "Login successful"; "user" := VObj o ]}
    /\ dom o = {[ "id"; "user_type"; "name"; "email"; "profile_picture" ]}
    /\ (forall k, k ∈ dom o -> o !! k = Some (get_prop (VObj user) k))
    /\ (forall req2 w2 w2' r2 user2 rest2,
          post_login req2 w2 = (inr r2, w2') ->
          status r2 = 200 ->
          users_with_email (w_db w2) (field req2 "email") = user2 :: rest2 ->
          delete "password" user2 = delete "password" user ->
          r2 = r).
Proof.
  intros Hrun Hst.
  destruct (post_login_200 req w w' r Hrun Hst) as (user & rest & Huser & ->).
  exists user, rest. eexists. split; [exact Huser |].
  split; [reflexivity |].
  split; [| split].
  - rewrite !dom_insert_L, dom_singleton_L. set_solver.
  - intros k. rewrite !dom_insert_L, dom_singleton_L.
    rewrite !elem_of_union, !elem_of_singleton.
    intros [-> | [-> | [-> | [-> | ->]]]]; by simplify_map_eq.
  - intros req2 w2 w2' r2 user2 rest2 Hrun2 Hst2 Huser2 Hsame.
    destruct (post_login_200 req2 w2 w2' r2 Hrun2 Hst2) as (u & rs & Hu & ->).
    rewrite Huser2 in Hu. injection Hu as <- _.
    assert (Hk : forall k, k <> "password" -> user2 !! k = user !! k).
    { intros k Hne.
      rewrite <- (lookup_delete_ne user2 "password" k) by done.
      rewrite Hsame. by apply lookup_delete_ne. }
    cbn [get_prop].
    by rewrite !Hk.
Qed.

(** ** Course listing *)

Lemma select_row_requirements (a1 : string) (r1 r2 : gmap string value) :
  select_row [Column "c" "id" "id"; Column "c" "name" "name";
              Column "i" "name" "university";
              Literal requirements_text "requirements"] a1 r1 r2
  !! "requirements" = Some (VStr requirements_text).
Proof. cbn [select_row foldl]. apply lookup_insert_eq. Qed.

(** C8: every row a successful GET /courses returns has the constant
    text in its requirements field, whatever the tables hold. *)
Theorem courses_requirements_constant (req : request) (w w' : world) (r : response) :
  get_courses req w = (inr r, w') ->
  status r = 200 ->
  exists data,
    json r = VArr (VObj <$> data)
    /\ forall row, row ∈ data ->
         row !! "requirements"
         = Some (VStr "High School Diploma, Pass in relevant subjects").
Proof.
  unfold get_courses. run_monad. unfold exec, sql_get_courses.
  destruct (fault _ _ _); [intros [= <- _] Hst; discriminate Hst |].
  intros [= <- _] _. eexists. split; [reflexivity |].
  intros row Hrow.
  apply list_elem_of_bind in Hrow as (r1 & Hrow & _).
  apply list_elem_of_fmap in Hrow as (r2 & -> & _).
  apply select_row_requirements.
Qed.

(** ** Inserts *)

(** The state after a successful [INSERT] of [vals] under [cs] into [t]. *)
Lemma exec_insert (t : table) (cs : list string) (vs : list placeholder)
    (ps : list value) (db : database) :
  exec (INSERT_INTO t cs vs) ps db
  = match fault (INSERT_INTO t cs vs) ps db with
    | Some e => (inl e, db)
    | None =>
      match bind_values vs ps with
      | None => (inl ER_PARSE_ERROR, db)
      | Some vals =>
        if decide (length cs = length vals) then
          (inr (OkPacket 1 (next_id (get_table db t))),
           set_table db t
             {| rows := rows (get_table db t)
                        ++ [<["id" := js_number (next_id (get_table db t))]>
                              (bind_columns cs vals)];
                next_id := next_id (get_table db t) + 1 |})
        else (inl ER_WRONG_VALUE_COUNT_ON_ROW, db)
      end
    end.
Proof. reflexivity. Qed.

Lemma get_set_table (db : database) (t : table) (d : table_data) :
  get_table (set_table db t d) t = d.
Proof. by destruct t. Qed.

Ltac split_truthy_eqn :=
  repeat match goal with
         | |- context [truthy ?v] => destruct (truthy v) eqn:?
         end.

(** In a goal that holds a handler's presence test, keeps the one case
    in which the test lets the request through. *)
Ltac complete_case Hi :=
  revert Hi; unfold incomplete;
  cbn [required_fields requires_file existsb andb orb]; cbv zeta;
  try destruct (no_file _) eqn:?; split_truthy_eqn;
  cbn [negb orb andb]; try discriminate; intros _.

Lemma post_register_201 (req : request) (w w' : world) (r : response) :
  post_register req w = (inr r, w') ->
  status r = 201 ->
  exists h,
    bcrypt_hash (field req "password") 10 = Some h
    /\ w_log w' = w_log w
                  ++ [(sql_register,
                       [field req "name"; field req "email"; VStr h;
                        field req "user_type"; file_path req])]
    /\ w_db w'
       = set_table (w_db w) users
           {| rows := rows (db_users (w_db w))
                      ++ [<["id" := js_number (next_id (db_users (w_db w)))]>
                            (bind_columns
                               ["name"; "email"; "password"; "user_type"; "profile_picture"]
                               [to_sql (field req "name"); to_sql (field req "email");
                                VStr h; to_sql (field req "user_type");
                                to_sql (file_path req)])];
              next_id := next_id (db_users (w_db w)) + 1 |}.
Proof.
  intros Hrun Hst.
  destruct (incomplete POST_register req) eqn:Hi.
  - change (handle POST_register req w = (inr r, w')) in Hrun.
    rewrite (incomplete_400 _ _ _ Hi) in Hrun.
    injection Hrun as <- _. discriminate Hst.
  - unfold post_register in Hrun. revert Hrun. complete_case Hi.
    run_monad.
    destruct (bcrypt_hash _ _) as [h|]; [| discriminate].
    unfold sql_register. rewrite exec_insert.
    destruct (fault _ _ _); [intros [= <- _]; discriminate Hst |].
    cbn. intros [= <- <-]. by exists h.
Qed.

(** C5: after a successful POST /register the new row's password column
    holds the string bcrypt returned for the submitted password at cost
    10, and the statement sent carries that string in the password
    position; the submitted password is not what is stored (unless it is
    that very string). *)
Theorem register_stores_hash (req : request) (w w' : world) (r : response) :
  post_register req w = (inr r, w') ->
  status r = 201 ->
  exists h row,
    bcrypt_hash (field req "password") 10 = Some h
    /\ w_log w' = w_log w
                  ++ [(sql_register,
                       [field req "name"; field req "email"; VStr h;
                        field req "user_type"; file_path req])]
    /\ rows (db_users (w_db w')) = rows (db_users (w_db w)) ++ [row]
    /\ row !! "password" = Some (VStr h)
    /\ (field req "password" <> VStr h ->
        row !! "password" <> Some (field req "password")).
Proof.
  intros Hrun Hst.
  destruct (post_register_201 req w w' r Hrun Hst) as (h & Hh & Hlog & Hdb).
  exists h. eexists. split; [exact Hh |]. split; [exact Hlog |].
  rewrite Hdb. cbn [set_table db_users rows].
  split; [reflexivity |].
  assert (Hpw : forall a b c d i : value,
             (<["id" := i]>
                (bind_columns
                   ["name"; "email"; "password"; "user_type"; "profile_picture"]
                   [a; b; VStr h; c; d]) : gmap string value)
             !! "password" = Some (VStr h)).
  { intros. unfold bind_columns. cbn [zip zip_with list_to_map foldr uncurry].
    by simplify_map_eq. }
  split; [apply Hpw |].
  intros Hne. rewrite Hpw. congruence.
Qed.

Lemma post_institutions_201 (req : request) (w w' : world) (r : response) :
  post_institutions req w = (inr r, w') ->
  status r = 201 ->
  w_db w'
  = set_table (w_db w) institutions
      {| rows := rows (db_institutions (w_db w))
                 ++ [<["id" := js_number (next_id (db_institutions (w_db w)))]>
                       (bind_columns
                          ["name"; "number_of_students"; "number_of_departments";
                           "number_of_courses"; "logo"]
                          [to_sql (field req "name");
                           to_sql (field req "number_of_students");
                           to_sql (field req "number_of_departments");
                           to_sql (field req "number_of_courses");
                           to_sql (file_path req)])];
         next_id := next_id (db_institutions (w_db w)) + 1 |}.
Proof.
  intros Hrun Hst.
  destruct (incomplete POST_institutions req) eqn:Hi.
  - change (handle POST_institutions req w = (inr r, w')) in Hrun.
    rewrite (incomplete_400 _ _ _ Hi) in Hrun.
    injection Hrun as <- _. discriminate Hst.
  - unfold post_institutions in Hrun. revert Hrun. complete_case Hi.
    run_monad. unfold sql_add_institution. rewrite exec_insert.
    destruct (fault _ _ _); [intros [= <- _]; discriminate Hst |].
    cbn. by intros [= <- <-].
Qed.

(** ** Uploads *)

(** No handler writes a file. *)
Lemma handle_disk (rt : route) (req : request) (w : world) :
  w_disk (handle rt req w).2 = w_disk w.
Proof.
  destruct rt; cbn [handle];
    unfold get_users, get_institutions, post_register, post_login,
      post_institutions, get_university, post_faculties, post_courses,
      get_courses, get_faculties, delete_institution, post_applications, get_root;
    cbv zeta; run_monad; repeat case_match; simplify_eq; reflexivity.
Qed.

Lemma upload_single_accepted (name : string) (now : Z) (req : request)
    (w : world) (f : upload_part) :
  upload req = Some f ->
  part_fieldname f = name ->
  fileFilter f = inr true ->
  upload_single name now req w
  = (inr {| body := body req; params := params req; upload := upload req;
            file := Some {| fieldname := part_fieldname f;
                            originalname := part_originalname f;
                            mimetype := part_mimetype f;
                            destination := "uploads/";
                            filename := pretty now +:+ "_" +:+ part_originalname f;
                            path := "uploads/" +:+ pretty now +:+ "_"
                                    +:+ part_originalname f |} |},
     {| w_db := w_db w; w_log := w_log w;
        w_disk := w_disk w ++ ["uploads/" +:+ pretty now +:+ "_" +:+ part_originalname f];
        w_console := w_console w |}).
Proof.
  intros Hup Hname Hok. unfold upload_single.
  rewrite Hup, Hname, String.eqb_refl, Hok. reflexivity.
Qed.

Lemma complete_intro (rt : route) (req : request) :
  (forall k, k ∈ required_fields rt -> truthy (field req k) = true) ->
  (requires_file rt = true -> no_file req = false) ->
  incomplete rt req = false.
Proof.
  intros Hfields Hfile. unfold incomplete. apply orb_false_iff. split.
  - destruct (existsb _ _) eqn:Hex; [| done].
    apply existsb_exists in Hex as (k & Hk & Hneg).
    apply list_elem_of_In in Hk. by rewrite (Hfields k Hk) in Hneg.
  - destruct (requires_file rt); [by rewrite Hfile | done].
Qed.

(** A registration that passes the presence check, whose password bcrypt
    hashes and whose statement the server accepts, is answered 201. *)
Lemma post_register_accepted (req : request) (w : world) (h : string) :
  incomplete POST_register req = false ->
  bcrypt_hash (field req "password") 10 = Some h ->
  fault sql_register
        [field req "name"; field req "email"; VStr h; field req "user_type"; file_path req]
        (w_db w) = None ->
  exists w',
    post_register req w
    = (inr (res_status_json 201 (message_body "User registered successfully.")), w').
Proof.
  intros Hi Hh Hfault. unfold post_register. complete_case Hi.
  run_monad. rewrite Hh. unfold sql_register in *. rewrite exec_insert, Hfault.
  cbn. by eexists.
Qed.

Lemma post_institutions_accepted (req : request) (w : world) :
  incomplete POST_institutions req = false ->
  fault sql_add_institution
        [field req "name"; field req "number_of_students";
         field req "number_of_departments"; field req "number_of_courses";
         file_path req]
        (w_db w) = None ->
  exists r w',
    post_institutions req w = (inr r, w') /\ status r = 201.
Proof.
  intros Hi Hfault. unfold post_institutions. complete_case Hi.
  run_monad. unfold sql_add_institution in *. rewrite exec_insert, Hfault.
  cbn. by eexists _, _.
Qed.

(** C7: a file part that the middleware of POST /register or POST
    /institutions accepts is written under [uploads/] with the name made
    of the timestamp, an underscore and the original file name; a 201
    answer means that the row the handler inserted holds that path in its
    profile_picture, respectively logo, column; and the handler does
    answer 201, with such a row inserted, when every required field is a
    truthy scalar, bcrypt returns a hash (for /register) and the server
    accepts the statement. *)
Theorem upload_path_persisted (rt : route) (now : Z) (req : request)
    (w : world) (f : upload_part) :
  requires_file rt = true ->
  upload req = Some f ->
  part_fieldname f = upload_field rt ->
  fileFilter f = inr true ->
  exists out w',
    serve rt now req w = (out, w')
    /\ w_disk w' = w_disk w ++ ["uploads/" +:+ pretty now +:+ "_" +:+ part_originalname f]
    /\ (forall r, out = inr r -> status r = 201 ->
        exists row,
          rows (get_table (w_db w') (file_table rt))
          = rows (get_table (w_db w) (file_table rt)) ++ [row]
          /\ row !! file_column rt
             = Some (VStr ("uploads/" +:+ pretty now +:+ "_" +:+ part_originalname f)))
    /\ ((forall k, k ∈ required_fields rt ->
                   truthy (field req k) = true /\ is_scalar (field req k) = true) ->
        (rt = POST_register -> exists h, bcrypt_hash (field req "password") 10 = Some h) ->
        (forall s ps, route_statement rt = Some s -> fault s ps (w_db w) = None) ->
        exists r row,
          out = inr r
          /\ status r = 201
          /\ rows (get_table (w_db w') (file_table rt))
             = rows (get_table (w_db w) (file_table rt)) ++ [row]
          /\ row !! file_column rt
             = Some (VStr ("uploads/" +:+ pretty now +:+ "_" +:+ part_originalname f))).
Proof.
  intros Hrt Hup Hname Hok.
  assert (Hmid : exists name, middleware rt now = upload_single name now
                              /\ upload_field rt = name).
  { destruct rt; try discriminate Hrt; by eexists. }
  destruct Hmid as (name & Hmid & Hfield).
  unfold serve. rewrite Hmid.
  unfold mbind, M_bind.
  rewrite (upload_single_accepted name now (incoming req) w f Hup
             (eq_trans Hname Hfield) Hok).
  match goal with |- context [handle rt ?q ?v] =>
    set (req' := q); set (w1 := v) end.
  pose proof (handle_disk rt req' w1) as Hdisk.
  destruct (handle rt req' w1) as [out w'] eqn:Hrun.
  exists out, w'. split; [reflexivity |]. split; [exact Hdisk |].
  assert (Hrow : forall r, out = inr r -> status r = 201 ->
            exists row,
              rows (get_table (w_db w') (file_table rt))
              = rows (get_table (w_db w) (file_table rt)) ++ [row]
              /\ row !! file_column rt
                 = Some (VStr ("uploads/" +:+ pretty now +:+ "_"
                               +:+ part_originalname f))).
  { intros r -> Hst.
    destruct rt; try discriminate Hrt; cbn [handle] in Hrun;
      cbn [file_table file_column get_table].
    - destruct (post_register_201 req' w1 w' r Hrun Hst) as (h & _ & _ & ->).
      eexists. cbn [set_table db_users rows w_db w1]. split; [reflexivity |].
      unfold bind_columns. cbn [zip zip_with list_to_map foldr uncurry file_path req' file
                                path to_sql].
      by simplify_map_eq.
    - rewrite (post_institutions_201 req' w1 w' r Hrun Hst).
      eexists. cbn [set_table db_institutions rows w_db w1]. split; [reflexivity |].
      unfold bind_columns. cbn [zip zip_with list_to_map foldr uncurry file_path req' file
                                path to_sql].
      by simplify_map_eq. }
  split; [exact Hrow |].
  intros Hfields Hhash Hfault.
  assert (Hi : incomplete rt req' = false).
  { apply complete_intro; [| done].
    intros k Hk. exact (proj1 (Hfields k Hk)). }
  assert (H201 : exists r, out = inr r /\ status r = 201).
  { destruct rt; try discriminate Hrt; cbn [handle] in Hrun.
    - destruct (Hhash eq_refl) as [h Hh].
      destruct (post_register_accepted req' w1 h Hi Hh (Hfault _ _ eq_refl))
        as [w0 Hacc].
      rewrite Hacc in Hrun. injection Hrun as <- _. by eexists.
    - destruct (post_institutions_accepted req' w1 Hi (Hfault _ _ eq_refl))
        as (r0 & w0 & Hacc & Hst).
      rewrite Hacc in Hrun. injection Hrun as <- _. by exists r0. }
  destruct H201 as (r & -> & Hst).
  destruct (Hrow r eq_refl Hst) as (row & Hrows & Hcol).
  by exists r, row.
Qed.

(** ** Error responses *)

Lemma filter_all {A} (P : A -> Prop) `{!forall x, Decision (P x)} (l : list A) :
  (length l <= length (filter P l))%nat -> Forall P l.
Proof.
  induction l as [|x l IH]; [constructor |].
  rewrite filter_cons. destruct (decide (P x)) as [Hx|Hx]; cbn [length].
  - intros Hlen. constructor; [exact Hx | apply IH; lia].
  - pose proof (length_filter P l). lia.
Qed.

Ltac close_forms :=
  cbn [status json res_json res_status_json w_db w_log];
  repeat split; try done; try lia; eauto 10.

Ltac forms_simple :=
  run_monad;
  destruct (exec _ _ _) as [[e|res] db'] eqn:Hex;
  intros [= <- <-]; close_forms.

Lemma handle_error_forms (rt : route) (req : request) (w w' : world) (r : response) :
  handle rt req w = (inr r, w') -> error_forms rt req w r w'.
Proof.
  intros Hrun. unfold error_forms.
  destruct (incomplete rt req) eqn:Hi.
  { rewrite (incomplete_400 _ _ _ Hi) in Hrun. injection Hrun as <- <-.
    close_forms. }
  revert Hrun.
  destruct rt; cbn [handle];
    unfold get_users, get_institutions, post_register, post_login,
      post_institutions, get_university, post_faculties, post_courses,
      get_courses, get_faculties, delete_institution, post_applications, get_root;
    try complete_case Hi; try clear Hi.
  - forms_simple.
  - forms_simple.
  - run_monad. destruct (bcrypt_hash _ _); [| discriminate]. forms_simple.
  - run_monad. rewrite exec_sql_login.
    destruct (fault _ _ _) eqn:Hfault.
    + intros [= <- <-]. close_forms.
      intros _. left. eexists _, _, _. split; [reflexivity |].
      by rewrite exec_sql_login, Hfault.
    + cbn [data_of]. destruct (users_with_email _ _) as [|user rest] eqn:Hu.
      * intros [= <- <-]. close_forms.
      * destruct (bcrypt_compare _ _) as [[|]|] eqn:Hcmp;
          intros [= <- <-]; close_forms.
  - run_monad. unfold sql_add_institution. rewrite exec_insert.
    destruct (fault _ _ _) eqn:Hfault.
    + intros [= <- <-]. close_forms.
      intros _. left. eexists _, _, _. split; [reflexivity |].
      by rewrite exec_insert, Hfault.
    + cbn. intros [= <- <-]. close_forms.
  - forms_simple.
  - forms_simple.
  - forms_simple.
  - forms_simple.
  - forms_simple.
  - run_monad. cbv zeta.
    destruct (exec _ _ _) as [[e|res] db'] eqn:Hex.
    + intros [= <- <-]. close_forms.
    + revert Hex. unfold exec, sql_delete_institution.
      destruct (fault _ _ _); [discriminate |].
      intros [= <- <-]. cbn [affectedRows_of].
      destruct (_ <? _)%Z eqn:Hpos; intros [= <- <-]; close_forms.
      refine (filter_all _ _ _). cbn [get_table] in Hpos. lia.
  - forms_simple.
  - run_monad. intros [= <- <-]. close_forms.
Qed.

Lemma fileFilter_not_skipped (f : upload_part) : fileFilter f <> inr false.
Proof. unfold fileFilter. by destruct (regex_test _ _). Qed.

(** A response of a route is a response of its handler, run on the same
    body and parameters and on the same database, with [req.file] set
    exactly when a file part came with the request. *)
Lemma serve_inv (rt : route) (now : Z) (req : request) (w w' : world) (r : response) :
  serve rt now req w = (inr r, w') ->
  exists req' w1,
    handle rt req' w1 = (inr r, w')
    /\ body req' = body req
    /\ params req' = params req
    /\ w_db w1 = w_db w
    /\ w_log w1 = w_log w
    /\ (requires_file rt = true -> file req' = None -> upload req = None).
Proof.
  unfold serve, mbind, M_bind.
  destruct (middleware rt now (incoming req) w) as [[e|req'] w1] eqn:Hmid;
    [discriminate |].
  intros Hrun. exists req', w1. split; [exact Hrun |].
  revert Hmid.
  assert (Hplain : requires_file rt = false ->
            (mret (incoming req) : M request) w = (inr req', w1) ->
            body req' = body req /\ params req' = params req
            /\ w_db w1 = w_db w /\ w_log w1 = w_log w
            /\ (requires_file rt = true -> file req' = None -> upload req = None)).
  { intros Hno [= <- <-]. repeat split; try done. congruence. }
  destruct rt; cbn [middleware]; try exact (Hplain eq_refl); clear Hplain;
    unfold upload_single; cbn [upload incoming];
    (destruct (upload req) as [f|] eqn:Hup;
     [| by intros [= <- <-]]);
    (destruct (String.eqb _ _); [| discriminate]);
    (destruct (fileFilter f) as [msg|[|]] eqn:Hok;
     [discriminate | | by destruct (fileFilter_not_skipped f)]);
    run_monad; by intros [= <- <-].
Qed.

Lemma incomplete_inv (rt : route) (req : request) :
  incomplete rt req = true ->
  (exists k, k ∈ required_fields rt /\ truthy (field req k) = false)
  \/ (requires_file rt = true /\ file req = None).
Proof.
  unfold incomplete. intros [H|H]%orb_true_iff.
  - left. apply existsb_exists in H as (k & Hk & Hf).
    exists k. split; [by apply list_elem_of_In | by apply negb_true_iff].
  - right. apply andb_true_iff in H as [Hr Hf]. split; [exact Hr |].
    unfold no_file in Hf. by destruct (file req).
Qed.

Lemma serve_error_forms (rt : route) (now : Z) (req : request) (w w' : world)
    (r : response) :
  serve rt now req w = (inr r, w') ->
  (status r = 200 \/ status r = 201 \/ status r = 400 \/ status r = 401
   \/ status r = 404 \/ status r = 500)
  /\ (400 <= status r -> exists msg, json r = error_body msg)
  /\ (status r = 400 ->
      ((exists k, k ∈ required_fields rt /\ truthy (field req k) = false)
       \/ (requires_file rt = true /\ upload req = None))
      /\ w_log w' = w_log w /\ w_db w' = w_db w)
  /\ (status r = 401 ->
      rt = POST_login
      /\ (users_with_email (w_db w) (field req "email") = []
          \/ exists user rest,
               users_with_email (w_db w) (field req "email") = user :: rest
               /\ bcrypt_compare (field req "password") (get_prop (VObj user) "password")
                  = Some false))
  /\ (status r = 404 ->
      rt = DELETE_institutions_id
      /\ Forall (fun row => ¬ sql_eq (col row "id")
                                (to_sql (default VUndefined (params req !! "id"))))
                (rows (db_institutions (w_db w))))
  /\ (status r = 500 ->
      (exists sql ps e,
          w_log w' = w_log w ++ [(sql, ps)]
          /\ exec sql ps (w_db w) = (inl e, w_db w'))
      \/ (rt = POST_login
          /\ exists user rest,
               users_with_email (w_db w) (field req "email") = user :: rest
               /\ bcrypt_compare (field req "password") (get_prop (VObj user) "password")
                  = None)).
Proof.
  intros Hserve.
  destruct (serve_inv rt now req w w' r Hserve)
    as (req' & w1 & Hrun & Hbody & Hparams & Hdb & Hlog & Hfile).
  assert (Hfield : forall k, field req' k = field req k).
  { intros k. unfold field. by rewrite Hbody. }
  destruct (handle_error_forms rt req' w1 w' r Hrun)
    as (Hst & Hmsg & H400 & H401 & H404 & H500).
  rewrite !Hfield, Hdb, Hparams, Hlog in *.
  repeat split; try done.
  - destruct (H400 H) as [Hi _].
    destruct (incomplete_inv rt req' Hi) as [(k & Hk & Hf) | [Hr Hn]].
    + left. exists k. by rewrite <- Hfield.
    + right. auto.
  - destruct (H400 H) as [_ ->]. done.
  - destruct (H400 H) as [_ ->]. done.
  - by destruct (H401 H).
  - by destruct (H401 H).
  - by destruct (H404 H).
  - by destruct (H404 H).
Qed.

(** The presence check seen from the route: when a required field of the
    body is falsy, either the handler answers 400, with the database and
    the statement log untouched, or the upload middleware has already
    refused the request's file and the handler never runs. *)
Lemma serve_incomplete (rt : route) (now : Z) (req : request) (w : world) (k : string) :
  k ∈ required_fields rt ->
  truthy (field req k) = false ->
  (exists w',
      serve rt now req w
      = (inr (res_status_json 400 (error_body (missing_message rt))), w')
      /\ w_db w' = w_db w /\ w_log w' = w_log w)
  \/ (exists msg, serve rt now req w = (inl (UploadError msg), w)).
Proof.
  intros Hk Hf. unfold serve, mbind, M_bind.
  destruct (middleware rt now (incoming req) w) as [[e|req'] w1] eqn:Hmid.
  - right. revert Hmid.
    destruct rt; cbn [middleware]; try discriminate;
      unfold upload_single; cbn [upload incoming];
      (destruct (upload req) as [f|]; [| discriminate]);
      (destruct (String.eqb _ _); [| intros [= <- <-]; by eexists]);
      (destruct (fileFilter f) as [msg|[|]];
       [intros [= <- <-]; by eexists | discriminate | discriminate]).
  - left.
    assert (Hsame : body req' = body req /\ w_db w1 = w_db w /\ w_log w1 = w_log w).
    { revert Hmid.
      destruct rt; cbn [middleware]; try (by intros [= <- <-]);
        unfold upload_single; cbn [upload incoming];
        (destruct (upload req) as [f|]; [| by intros [= <- <-]]);
        (destruct (String.eqb _ _); [| discriminate]);
        (destruct (fileFilter f) as [msg|[|]]; [discriminate | | by intros [= <- <-]]);
        run_monad; by intros [= <- <-]. }
    destruct Hsame as (Hbody & Hdb & Hlog).
    exists w1. split; [| done].
    apply incomplete_400, (falsy_incomplete rt req' k Hk).
    unfold field in *. by rewrite Hbody.
Qed.

(** C2 (amended): a response with an error status has one of four
    forms, each with an error message: 400 when a required field is
    falsy or the required file is missing, with nothing sent to the
    database; 401, from POST /login only, when no user has the e-mail
    address or the password does not match the stored hash; 404, from
    DELETE /institutions/:id only, when no row has the id; 500 when the
    statement the handler sent failed, when, in POST /login, the
    comparison of the password was rejected, or when the JSON body could
    not be parsed.  No other error status is returned. *)
Theorem error_statuses (rt : route) (now : Z) (a : arrival) (w w' : world)
    (r : response) :
  app rt now a w = (inr r, w') ->
  (status r = 200 \/ status r = 201 \/ status r = 400 \/ status r = 401
   \/ status r = 404 \/ status r = 500)
  /\ (400 <= status r -> exists msg, json r = error_body msg)
  /\ (a = Unparsable -> status r = 500)
  /\ forall req, a = Parsed req ->
       (status r = 400 ->
        ((exists k, k ∈ required_fields rt /\ truthy (field req k) = false)
         \/ (requires_file rt = true /\ upload req = None))
        /\ w_log w' = w_log w /\ w_db w' = w_db w)
       /\ (status r = 401 ->
           rt = POST_login
           /\ (users_with_email (w_db w) (field req "email") = []
               \/ exists user rest,
                    users_with_email (w_db w) (field req "email") = user :: rest
                    /\ bcrypt_compare (field req "password")
                                      (get_prop (VObj user) "password") = Some false))
       /\ (status r = 404 ->
           rt = DELETE_institutions_id
           /\ Forall (fun row => ¬ sql_eq (col row "id")
                                     (to_sql (default VUndefined (params req !! "id"))))
                     (rows (db_institutions (w_db w))))
       /\ (status r = 500 ->
           (exists sql ps e,
               w_log w' = w_log w ++ [(sql, ps)]
               /\ exec sql ps (w_db w) = (inl e, w_db w'))
           \/ (rt = POST_login
               /\ exists user rest,
                    users_with_email (w_db w) (field req "email") = user :: rest
                    /\ bcrypt_compare (field req "password")
                                      (get_prop (VObj user) "password") = None)).
Proof.
  intros Happ. destruct a as [req|]; cbn [app] in Happ.
  - destruct (serve_error_forms rt now req w w' r Happ)
      as (Hst & Hmsg & H400 & H401 & H404 & H500).
    split; [exact Hst |]. split; [exact Hmsg |]. split; [discriminate |].
    intros req0 [= <-]. auto.
  - revert Happ. unfold error_middleware. run_monad. intros [= <- _].
    cbn [status json res_status_json].
    split; [auto 10 |]. split; [by eexists |]. split; [done |].
    intros req0 Hreq. discriminate Hreq.
Qed.

(** ** The file filter *)

Example fileFilter_png :
  fileFilter {| part_fieldname := "logo"; part_originalname := "a.png";
                part_mimetype := "image/png" |} = inr true.
Proof. reflexivity. Qed.

Example filename_example :
  storage.filename 1700000000000
    {| part_fieldname := "logo"; part_originalname := "a.png";
       part_mimetype := "image/png" |} = "1700000000000_a.png".
Proof. vm_compute. reflexivity. Qed.

Lemma prefix_app (a s : string) :
  String.prefix a s = true <-> exists post, s = a +:+ post.
Proof.
  revert s. induction a as [|c a IH]; intros s.
  - split; [intros _; by exists s | by destruct s].
  - destruct s as [|d s]; cbn [String.prefix].
    + split; [done | intros [post Hpost]; discriminate Hpost].
    + destruct (Ascii.ascii_dec c d) as [->|Hne].
      * rewrite IH. split; intros [post Hpost]; exists post.
        -- by rewrite Hpost.
        -- by injection Hpost.
      * split; [done | intros [post Hpost]]. injection Hpost as -> _. done.
Qed.

(** [test] is a search for one of the literals anywhere in the subject. *)
Lemma regex_test_spec (re : regex) (s : string) :
  regex_test re s = true
  <-> exists pre lit post, lit ∈ re /\ s = pre +:+ lit +:+ post.
Proof.
  split.
  - induction s as [|c s IH]; cbn [regex_test]; intros [H|H]%orb_true_iff;
      try discriminate H.
    + apply existsb_exists in H as (lit & Hin & [post Hpost]%prefix_app).
      exists "", lit, post. split; [by apply list_elem_of_In | done].
    + apply existsb_exists in H as (lit & Hin & [post Hpost]%prefix_app).
      exists "", lit, post. split; [by apply list_elem_of_In | done].
    + destruct (IH H) as (pre & lit & post & Hin & ->).
      by exists (String c pre), lit, post.
  - intros (pre & lit & post & Hin & ->).
    induction pre as [|c pre IH].
    + change ("" +:+ lit +:+ post) with (lit +:+ post).
      assert (Hex : existsb (fun l => String.prefix l (lit +:+ post)) re = true).
      { apply existsb_exists. exists lit.
        split; [by apply list_elem_of_In | apply prefix_app; by exists post]. }
      destruct (lit +:+ post); cbn [regex_test]; by rewrite Hex.
    + change (String c pre +:+ lit +:+ post) with (String c (pre +:+ lit +:+ post)).
      cbn [regex_test]. rewrite IH. apply orb_true_r.
Qed.

(** What the filter accepts: every type in which "jpeg", "jpg", "png"
    or "gif" occurs. *)
Lemma fileFilter_accepts_iff (f : upload_part) :
  fileFilter f = inr true
  <-> exists pre lit post,
        lit ∈ ["jpeg"; "jpg"; "png"; "gif"]
        /\ part_mimetype f = pre +:+ lit +:+ post.
Proof.
  rewrite <- (regex_test_spec filetypes). unfold fileFilter.
  destruct (regex_test _ _); split; (done || discriminate).
Qed.

(** C3: the filter lets through a file whose declared type is none of
    JPEG, PNG and GIF, because it searches the type for a substring:
    here [application/x-gift-script], which contains "gif". *)
Theorem fileFilter_accepts_other_type :
  fileFilter {| part_fieldname := "logo"; part_originalname := "run.sh";
                part_mimetype := "application/x-gift-script" |} = inr true
  /\ forall now w,
       (upload_single "logo" now (Sample.form_request Sample.institution_body Sample.script) w).1
       = inr {| body := Sample.institution_body; params := ∅;
                upload := Some Sample.script;
                file := Some {| fieldname := "logo"; originalname := "run.sh";
                                mimetype := "application/x-gift-script";
                                destination := "uploads/";
                                filename := pretty now +:+ "_run.sh";
                                path := "uploads/" +:+ pretty now +:+ "_run.sh" |} |}.
Proof. split; [reflexivity |]. intros now w. reflexivity. Qed.

(** ** Applications *)

Lemma collect_grades_eq (grades : value) :
  collect_grades grades
  = ((fun i => if truthy (get_index grades i)
               then js_or (get_prop (get_index grades i) "subject") (VStr "")
               else VStr "") <$> seq 0 8,
     (fun i => if truthy (get_index grades i)
               then js_or (get_prop (get_index grades i) "grade") (VStr "")
               else VStr "") <$> seq 0 8).
Proof.
  unfold collect_grades. generalize (seq 0 8). intros l.
  match goal with |- foldl ?step _ _ = (?f <$> _, ?g <$> _) =>
    set (st := step); set (subj := f); set (grd := g)
  end.
  enough (Hgen : forall acc1 acc2,
             foldl st (acc1, acc2) l = (acc1 ++ (subj <$> l), acc2 ++ (grd <$> l)))
    by apply (Hgen [] []).
  induction l as [|i l IH]; intros acc1 acc2; cbn [foldl fmap list_fmap].
  - by rewrite !app_nil_r.
  - unfold st at 2, subj at 1, grd at 1.
    destruct (truthy (get_index grades i)); rewrite IH, <- !app_assoc; reflexivity.
Qed.

Lemma application_params_length (req : request) :
  length (application_params req) = 23%nat.
Proof. unfold application_params. by rewrite collect_grades_eq. Qed.

(** A complete application whose parameters are scalars is always
    answered 500: the statement has twenty [?] for twenty-three columns, so
    the server refuses it. *)
Lemma post_applications_fails (req : request) (w : world) :
  incomplete POST_applications req = false ->
  Forall (fun v => is_scalar v = true) (application_params req) ->
  exists w',
    post_applications req w
    = (inr (res_status_json 500
              (error_body "Database error during application submission.")), w')
    /\ w_db w' = w_db w
    /\ w_log w' = w_log w ++ [(sqlQuery, application_params req)].
Proof.
  intros Hi _. unfold post_applications. complete_case Hi.
  run_monad. unfold sqlQuery. rewrite exec_insert.
  destruct (fault _ _ _); [by eexists |].
  unfold bind_values. pose proof (application_params_length req) as Hlen.
  cbn [length]. rewrite Hlen.
  destruct (decide _) as [_|Hn]; [| exfalso; apply Hn; lia].
  destruct (decide _) as [Heq|_]; [| by eexists].
  rewrite length_fmap, length_take, Hlen in Heq. discriminate Heq.
Qed.

(** C1: for an application with the single pair (Maths, A) the handler
    answers 500 and inserts nothing; and the parameter list it built,
    paired with the column list position by position, puts the empty
    string, not the grade A, under grade1 (and the grade under subject5). *)
Theorem application_grades_misplaced (w : world) :
  (exists w',
      post_applications Sample.application w
      = (inr (res_status_json 500
                (error_body "Database error during application submission.")), w')
      /\ w_db w' = w_db w)
  /\ get_prop (get_index (field Sample.application "grades") 0) "grade" = VStr "A"
  /\ bind_columns (insert_columns sqlQuery) (application_params Sample.application)
     !! "grade1" = Some (VStr "")
  /\ bind_columns (insert_columns sqlQuery) (application_params Sample.application)
     !! "subject5" = Some (VStr "A").
Proof.
  split.
  - destruct (post_applications_fails Sample.application w) as (w' & Hrun & Hdb & _);
      [by vm_compute | vm_compute; repeat constructor |].
    by exists w'.
  - repeat split; by vm_compute.
Qed.

(** ** Further properties of the handlers *)

Lemma complete_fields (rt : route) (req : request) (k : string) :
  incomplete rt req = false -> k ∈ required_fields rt -> truthy (field req k) = true.
Proof.
  intros Hi Hk. destruct (truthy (field req k)) eqn:Hf; [done |].
  by rewrite (falsy_incomplete rt req k Hk Hf) in Hi.
Qed.

Lemma complete_file (rt : route) (req : request) :
  incomplete rt req = false -> requires_file rt = true -> no_file req = false.
Proof.
  unfold incomplete. intros [_ Hi]%orb_false_iff Hr. by rewrite Hr in Hi.
Qed.

(** In a goal that holds a handler's presence test, rewrites the test to
    [false] from [Hi : incomplete rt req = false]. *)
Ltac pass_guard Hi :=
  cbv zeta;
  repeat match goal with
         | |- context [truthy (field ?r ?k)] =>
           rewrite (complete_fields _ r k Hi)
             by (apply list_elem_of_In; cbn; auto 10)
         end;
  try rewrite (complete_file _ _ Hi eq_refl);
  cbn [negb orb].

Lemma exec_error_db (s : stmt) (ps : list value) (db db' : database) (e : db_error) :
  exec s ps db = (inl e, db') -> db' = db.
Proof.
  unfold exec. destruct (fault s ps db); [by intros [= _ <-] |].
  destruct s; repeat case_match; by intros [= <-].
Qed.

Lemma filter_Forall_id {A} (P : A -> Prop) `{!forall x, Decision (P x)} (l : list A) :
  Forall P l -> filter P l = l.
Proof.
  induction 1 as [|x l Hx _ IH]; [done |].
  rewrite filter_cons. destruct (decide (P x)); [by rewrite IH | done].
Qed.

Lemma set_table_same (db : database) (t : table) :
  set_table db t {| rows := rows (get_table db t); next_id := next_id (get_table db t) |}
  = db.
Proof. destruct db as [[] [] [] [] []], t; reflexivity. Qed.

(** What [sql_delete_institution] does when the server accepts it. *)
Lemma exec_sql_delete (id : value) (db : database) :
  exec sql_delete_institution [id] db
  = match fault sql_delete_institution [id] db with
    | Some e => (inl e, db)
    | None =>
      let kept := filter (fun r => ¬ sql_eq (col r "id") (to_sql id))
                         (rows (db_institutions db)) in
      (inr (OkPacket (Z.of_nat (length (rows (db_institutions db)))
                      - Z.of_nat (length kept)) 0),
       set_table db institutions
         {| rows := kept; next_id := next_id (db_institutions db) |})
    end.
Proof. reflexivity. Qed.

(** X1: a handler sends at most one statement per request, and it is the
    statement of its route; [GET /] sends none. *)
Theorem one_statement_per_request (rt : route) (req : request) (w : world) :
  w_log (handle rt req w).2 = w_log w
  \/ exists s ps,
       route_statement rt = Some s
       /\ w_log (handle rt req w).2 = w_log w ++ [(s, ps)].
Proof.
  destruct rt; cbn [handle route_statement];
    unfold get_users, get_institutions, post_register, post_login,
      post_institutions, get_university, post_faculties, post_courses,
      get_courses, get_faculties, delete_institution, post_applications, get_root;
    cbv zeta; run_monad; repeat case_match; simplify_eq; cbn [snd w_log]; eauto.
Qed.

(** X2: the database a handler leaves differs from the one it found only
    when it answers 201, or 200 on DELETE /institutions/:id; every other
    outcome (any GET, a login, a 400, 401, 404 or 500, a thrown error)
    leaves it as it was. *)
Theorem database_changes_only_on_success (rt : route) (req : request) (w : world) :
  w_db (handle rt req w).2 = w_db w
  \/ exists r,
       (handle rt req w).1 = inr r
       /\ (status r = 201 \/ (rt = DELETE_institutions_id /\ status r = 200)).
Proof.
  destruct (incomplete rt req) eqn:Hi.
  { left. by rewrite (incomplete_400 _ _ _ Hi). }
  assert (Hsel : forall s ps res db',
             exec s ps (w_db w) = (inr res, db') ->
             match s with SELECT_star _ | SELECT_star_WHERE _ _ _
                        | SELECT_columns _ _ | SELECT_JOIN _ _ _ _ _ _ _ => True
                        | _ => False end ->
             db' = w_db w).
  { intros s ps res db'. unfold exec. destruct (fault _ _ _); [discriminate |].
    destruct s; try done; repeat case_match; by intros [= _ <-]. }
  destruct rt; cbn [handle];
    unfold get_users, get_institutions, post_register, post_login,
      post_institutions, get_university, post_faculties, post_courses,
      get_courses, get_faculties, delete_institution, post_applications, get_root;
    pass_guard Hi; run_monad;
    try (destruct (bcrypt_hash _ _); [| by left]);
    try (destruct (exec _ _ _) as [[e|res] db'] eqn:Hex;
         [left; cbn [snd w_db]; exact (exec_error_db _ _ _ _ _ Hex) |]);
    try (left; cbn [snd w_db]; repeat case_match; simplify_eq; cbn [snd w_db];
         by eapply Hsel);
    try (right; eexists; split; [reflexivity |]; cbn [status res_status_json]; by left).
  - revert Hex. unfold sql_add_institution. rewrite exec_insert.
    destruct (fault _ _ _); [discriminate |]. cbn. intros [= <- <-].
    right. eexists. split; [reflexivity |]. by left.
  - revert Hex. rewrite exec_sql_delete.
    destruct (fault _ _ _); [discriminate |]. cbv zeta. intros [= <- <-].
    cbn [affectedRows_of]. destruct (_ <? _)%Z eqn:Hpos.
    + right. eexists. split; [reflexivity |]. right. done.
    + left. cbn [snd w_db].
      rewrite filter_Forall_id; [apply (set_table_same (w_db w) institutions) |].
      refine (filter_all _ _ _). lia.
  - by left.
Qed.

Lemma delete_institution_200 (req : request) (w w' : world) (r : response) :
  delete_institution req w = (inr r, w') ->
  status r = 200 ->
  w_db w'
  = set_table (w_db w) institutions
      {| rows := filter (fun row => ¬ sql_eq (col row "id") (institution_id_param req))
                        (rows (db_institutions (w_db w)));
         next_id := next_id (db_institutions (w_db w)) |}
  /\ (length (filter (fun row => ¬ sql_eq (col row "id") (institution_id_param req))
                     (rows (db_institutions (w_db w))))
      < length (rows (db_institutions (w_db w))))%nat.
Proof.
  unfold delete_institution, institution_id_param. cbv zeta. run_monad.
  rewrite exec_sql_delete.
  destruct (fault _ _ _); [intros [= <- _] Hst; discriminate Hst |].
  cbv zeta. cbn [affectedRows_of].
  destruct (_ <? _)%Z eqn:Hpos; intros [= <- <-] Hst; [| discriminate Hst].
  split; [reflexivity |]. apply Z.ltb_lt in Hpos. lia.
Qed.

(** X3: when DELETE /institutions/:id answers 200, the institutions left
    are exactly the rows whose id does not equal the parameter, and at
    least one row is gone. *)
Theorem delete_removes_matching_rows (req : request) (w w' : world) (r : response) :
  delete_institution req w = (inr r, w') ->
  status r = 200 ->
  rows (db_institutions (w_db w'))
  = filter (fun row => ¬ sql_eq (col row "id") (institution_id_param req))
           (rows (db_institutions (w_db w)))
  /\ Forall (fun row => ¬ sql_eq (col row "id") (institution_id_param req))
            (rows (db_institutions (w_db w')))
  /\ (length (rows (db_institutions (w_db w')))
      < length (rows (db_institutions (w_db w))))%nat.
Proof.
  intros Hrun Hst.
  destruct (delete_institution_200 req w w' r Hrun Hst) as [-> Hlen].
  cbn [set_table db_institutions rows].
  repeat split; try done.
  apply Forall_forall. intros row Hrow. by apply list_elem_of_filter in Hrow as [? _].
Qed.

(** X4: the same DELETE sent again after a 200 is answered 404 (when the
    server accepts the statement): no row with the id is left. *)
Theorem delete_twice_not_found (req : request) (w w' : world) (r : response) :
  delete_institution req w = (inr r, w') ->
  status r = 200 ->
  fault sql_delete_institution [default VUndefined (params req !! "id")] (w_db w') = None ->
  (delete_institution req w').1
  = inr (res_status_json 404 (error_body "Institution not found.")).
Proof.
  intros Hrun Hst Hfault.
  destruct (delete_institution_200 req w w' r Hrun Hst) as [Hdb _].
  unfold delete_institution. cbv zeta. run_monad.
  rewrite exec_sql_delete, Hfault. cbv zeta.
  rewrite Hdb. cbn [set_table db_institutions rows affectedRows_of].
  fold (institution_id_param req).
  rewrite (filter_Forall_id _ (filter _ _)).
  - by rewrite Z.sub_diag.
  - apply Forall_forall. intros row Hrow.
    by apply list_elem_of_filter in Hrow as [? _].
Qed.


(** ** Registration and login together *)

Lemma to_sql_truthy (v : value) : truthy v = true -> to_sql v = v.
Proof. by destruct v. Qed.

Lemma status_201_complete (rt : route) (req : request) (w w' : world) (r : response) :
  handle rt req w = (inr r, w') -> status r = 201 -> incomplete rt req = false.
Proof.
  intros Hrun Hst. destruct (incomplete rt req) eqn:Hi; [| done].
  rewrite (incomplete_400 _ _ _ Hi) in Hrun. injection Hrun as <- _. discriminate Hst.
Qed.

(** The row a successful registration appends, with the values it holds. *)
Lemma post_register_row (req : request) (w w' : world) (r : response) :
  post_register req w = (inr r, w') ->
  status r = 201 ->
  exists h f row,
    bcrypt_hash (field req "password") 10 = Some h
    /\ file req = Some f
    /\ rows (db_users (w_db w')) = rows (db_users (w_db w)) ++ [row]
    /\ row !! "name" = Some (field req "name")
    /\ row !! "email" = Some (field req "email")
    /\ row !! "password" = Some (VStr h)
    /\ row !! "user_type" = Some (field req "user_type")
    /\ row !! "profile_picture" = Some (VStr (path f))
    /\ row !! "id" = Some (js_number (next_id (db_users (w_db w)))).
Proof.
  intros Hrun Hst.
  pose proof (status_201_complete POST_register req w w' r Hrun Hst) as Hi.
  destruct (post_register_201 req w w' r Hrun Hst) as (h & Hh & _ & ->).
  pose proof (complete_file _ _ Hi eq_refl) as Hfile.
  unfold no_file in Hfile. unfold file_path.
  destruct (file req) as [f|]; [| discriminate Hfile].
  rewrite !to_sql_truthy
    by (apply (complete_fields POST_register req _ Hi), list_elem_of_In; cbn; auto 10).
  exists h, f. eexists. split; [exact Hh |]. split; [reflexivity |].
  cbn [set_table db_users rows]. split; [reflexivity |].
  unfold bind_columns. cbn [zip zip_with list_to_map foldr uncurry to_sql].
  repeat split; by simplify_map_eq.
Qed.

(** X6: a user who registered, with a name, an e-mail address and a type
    that are strings, under an e-mail address no stored user had, can log
    in with the same e-mail address and password: the login answers 200
    with the name, address, type and picture path given at registration.
    This needs what the database and bcrypt are expected to do: the address
    compares equal to itself, the comparison accepts the hash made from the
    password, and the SELECT is not refused. *)
Theorem register_then_login (req req2 : request) (w w' : world) (r : response) :
  post_register req w = (inr r, w') ->
  status r = 201 ->
  is_string (field req "name") = true ->
  is_string (field req "email") = true ->
  is_string (field req "user_type") = true ->
  users_with_email (w_db w) (field req "email") = [] ->
  sql_eq (field req "email") (field req "email") = true ->
  (forall h, bcrypt_hash (field req "password") 10 = Some h ->
             bcrypt_compare (field req "password") (VStr h) = Some true) ->
  field req2 "email" = field req "email" ->
  field req2 "password" = field req "password" ->
  fault sql_login [field req "email"] (w_db w') = None ->
  exists o r2 w'',
    post_login req2 w' = (inr r2, w'')
    /\ status r2 = 200
    /\ json r2 = VObj {[ "message" := VStr "Login successful"; "user" := VObj o ]}
    /\ o !! "name" = Some (field req "name")
    /\ o !! "email" = Some (field req "email")
    /\ o !! "user_type" = Some (field req "user_type")
    /\ (exists f, file req = Some f /\ o !! "profile_picture" = Some (VStr (path f))).
Proof.
  intros Hrun Hst _ _ _ Hnew Hrefl Hcmp He2 Hp2 Hfault.
  pose proof (status_201_complete POST_register req w w' r Hrun Hst) as Hi.
  assert (Hte : truthy (field req "email") = true)
    by (apply (complete_fields POST_register req _ Hi), list_elem_of_In; cbn; auto 10).
  assert (Htp : truthy (field req "password") = true)
    by (apply (complete_fields POST_register req _ Hi), list_elem_of_In; cbn; auto 10).
  destruct (post_register_row req w w' r Hrun Hst)
    as (h & f & row & Hh & Hf & Hrows & Hname & Hemail & Hpw & Htype & Hpic & _).
  assert (Husers : users_with_email (w_db w') (field req "email") = [row]).
  { unfold users_with_email in *. rewrite Hrows, filter_app, Hnew.
    rewrite (filter_singleton_True _ row []); [done |].
    unfold col. rewrite Hemail. cbn [default from_option id].
    rewrite (to_sql_truthy _ Hte). by rewrite Hrefl. }
  rewrite (post_login_complete req2 w') by (by rewrite ?He2, ?Hp2).
  run_monad. rewrite He2, Hp2, exec_sql_login, Hfault, Husers.
  cbn [data_of get_prop]. rewrite Hpw. cbn [default from_option id]. rewrite (Hcmp h Hh).
  eexists _, _, _. split; [reflexivity |]. split; [reflexivity |].
  split; [reflexivity |].
  rewrite Hname, Hemail, Htype, Hpic. cbn [default from_option id].
  repeat split; try by simplify_map_eq.
  exists f. split; [exact Hf | by simplify_map_eq].
Qed.

(** X7: a login looks at the first row the SELECT returns and at no
    other: two databases whose first user with the e-mail address is the
    same give the same response, whatever other users share the
    address. *)
Theorem login_first_match_only (req : request) (w1 w2 : world)
    (user : gmap string value) (rest1 rest2 : list (gmap string value)) :
  users_with_email (w_db w1) (field req "email") = user :: rest1 ->
  users_with_email (w_db w2) (field req "email") = user :: rest2 ->
  fault sql_login [field req "email"] (w_db w1) = None ->
  fault sql_login [field req "email"] (w_db w2) = None ->
  (post_login req w1).1 = (post_login req w2).1.
Proof.
  intros Hu1 Hu2 Hf1 Hf2.
  destruct (incomplete POST_login req) eqn:Hi.
  { change (post_login req) with (handle POST_login req).
    by rewrite !(incomplete_400 _ _ _ Hi). }
  rewrite !post_login_complete
    by (apply (complete_fields POST_login req _ Hi), list_elem_of_In; cbn; auto 10).
  run_monad. rewrite !exec_sql_login, Hf1, Hf2, Hu1, Hu2. cbn [data_of].
  by destruct (bcrypt_compare _ _) as [[|]|].
Qed.

(** X8: [bcrypt.hash] is awaited outside the [try] block of POST
    /register: when it is rejected the handler ends with that error, having
    sent no response and no statement. *)
Theorem register_hash_rejection_uncaught (req : request) (w : world) :
  incomplete POST_register req = false ->
  bcrypt_hash (field req "password") 10 = None ->
  post_register req w = (inl BcryptError, w).
Proof.
  intros Hi Hh. unfold post_register. pass_guard Hi. run_monad. by rewrite Hh.
Qed.

(** X9: [bcrypt.compare] is awaited inside the [try] block of POST /login:
    when it is rejected the handler answers 500 with the message of a
    database error, and logs the error. *)
Theorem login_compare_rejection_is_500 (req : request) (w : world)
    (user : gmap string value) (rest : list (gmap string value)) :
  incomplete POST_login req = false ->
  fault sql_login [field req "email"] (w_db w) = None ->
  users_with_email (w_db w) (field req "email") = user :: rest ->
  bcrypt_compare (field req "password") (get_prop (VObj user) "password") = None ->
  post_login req w
  = (inr (res_status_json 500 (error_body "Database query error.")),
     {| w_db := w_db w;
        w_log := w_log w ++ [(sql_login, [field req "email"])];
        w_disk := w_disk w;
        w_console := w_console w ++ [BcryptError] |}).
Proof.
  intros Hi Hfault Hu Hcmp.
  rewrite post_login_complete
    by (apply (complete_fields POST_login req _ Hi), list_elem_of_In; cbn; auto 10).
  run_monad. rewrite exec_sql_login, Hfault, Hu. cbn [data_of]. by rewrite Hcmp.
Qed.

(** X10: GET /users returns whole rows: after a successful registration
    its listing ends with the new user's row, whose password field is the
    hash bcrypt returned. *)
Theorem register_then_list_shows_hash (req req2 : request) (w w' : world) (r : response) :
  post_register req w = (inr r, w') ->
  status r = 201 ->
  fault sql_get_users [] (w_db w') = None ->
  exists h row listing,
    bcrypt_hash (field req "password") 10 = Some h
    /\ (get_users req2 w').1 = inr (res_json (VArr (listing ++ [VObj row])))
    /\ row !! "password" = Some (VStr h).
Proof.
  intros Hrun Hst Hfault.
  destruct (post_register_row req w w' r Hrun Hst)
    as (h & f & row & Hh & _ & Hrows & _ & _ & Hpw & _).
  exists h, row, (VObj <$> rows (db_users (w_db w))).
  split; [exact Hh |]. split; [| done].
  unfold get_users. run_monad. unfold exec. rewrite Hfault. unfold sql_get_users.
  cbn [get_table result_value fst]. by rewrite Hrows, fmap_app.
Qed.

(** ** Uploads, further *)

(** X11: the filter decides by substring search and by nothing else: it
    calls back with [true] when "jpeg", "jpg", "png" or "gif" occurs in the
    MIME type, and with the error "Invalid file type. ..." when none
    does. *)
Theorem fileFilter_decides_by_substring (f : upload_part) :
  (fileFilter f = inr true
   /\ exists pre lit post,
        lit ∈ ["jpeg"; "jpg"; "png"; "gif"]
        /\ part_mimetype f = pre +:+ lit +:+ post)
  \/ (fileFilter f = inl "Invalid file type. Only JPEG, PNG, and GIF are allowed."
      /\ forall pre lit post,
           lit ∈ ["jpeg"; "jpg"; "png"; "gif"]
           -> part_mimetype f <> pre +:+ lit +:+ post).
Proof.
  unfold fileFilter. destruct (regex_test filetypes (part_mimetype f)) eqn:Htest.
  - left. split; [done |]. by apply (regex_test_spec filetypes).
  - right. split; [done |]. intros pre lit post Hlit Heq.
    assert (Hyes : regex_test filetypes (part_mimetype f) = true)
      by (apply regex_test_spec; eauto).
    congruence.
Qed.

(** X12: a file part under another field name, or one the filter refuses,
    stops the request in the middleware: nothing is written to disk, no
    statement is sent, and the handler does not run. *)
Theorem refused_upload_changes_nothing (rt : route) (now : Z) (req : request)
    (w : world) (f : upload_part) :
  requires_file rt = true ->
  upload req = Some f ->
  part_fieldname f <> upload_field rt \/ fileFilter f <> inr true ->
  exists msg, serve rt now req w = (inl (UploadError msg), w).
Proof.
  intros Hrt Hup Hbad.
  assert (Hmid : middleware rt now = upload_single (upload_field rt) now)
    by (destruct rt; try discriminate Hrt; reflexivity).
  unfold serve, mbind, M_bind. rewrite Hmid.
  unfold upload_single. cbn [upload incoming]. rewrite Hup.
  destruct (String.eqb_spec (part_fieldname f) (upload_field rt)) as [Heq|Hne].
  - destruct (fileFilter f) as [msg|[|]] eqn:Hok.
    + by exists msg.
    + by destruct Hbad.
    + by destruct (fileFilter_not_skipped f).
  - by eexists.
Qed.

(** X13: an accepted file is written before the handler checks the body:
    when a required field is then found falsy the answer is 400 and the
    database is untouched, but the file stays under [uploads/]. *)
Theorem accepted_upload_kept_on_400 (rt : route) (now : Z) (req : request)
    (w : world) (f : upload_part) (k : string) :
  requires_file rt = true ->
  upload req = Some f ->
  part_fieldname f = upload_field rt ->
  fileFilter f = inr true ->
  k ∈ required_fields rt ->
  truthy (field req k) = false ->
  exists w',
    serve rt now req w
    = (inr (res_status_json 400 (error_body (missing_message rt))), w')
    /\ w_disk w' = w_disk w ++ ["uploads/" +:+ pretty now +:+ "_" +:+ part_originalname f]
    /\ w_db w' = w_db w
    /\ w_log w' = w_log w.
Proof.
  intros Hrt Hup Hname Hok Hk Hf.
  assert (Hmid : middleware rt now = upload_single (upload_field rt) now)
    by (destruct rt; try discriminate Hrt; reflexivity).
  unfold serve, mbind, M_bind. rewrite Hmid.
  rewrite (upload_single_accepted _ now (incoming req) w f Hup Hname Hok).
  eexists. split; [by apply incomplete_400, (falsy_incomplete rt _ k Hk) | done].
Qed.

Lemma length_append (a b : string) :
  String.length (a +:+ b) = (String.length a + String.length b)%nat.
Proof.
  induction a as [|c a IH]; [done |].
  change (String c a +:+ b) with (String c (a +:+ b)).
  cbn [String.length]. by rewrite IH.
Qed.

Lemma append_cancel_r (a b t : string) : a +:+ t = b +:+ t -> a = b.
Proof.
  revert b. induction a as [|c a IH]; intros [|d b] Heq; [done | | |].
  - apply (f_equal String.length) in Heq.
    change ("" +:+ t) with t in Heq. rewrite length_append in Heq.
    cbn [String.length] in Heq. lia.
  - apply (f_equal String.length) in Heq.
    change ("" +:+ t) with t in Heq. rewrite length_append in Heq.
    cbn [String.length] in Heq. lia.
  - change (String c a +:+ t = String d b +:+ t)
      with (String c (a +:+ t) = String d (b +:+ t)) in Heq.
    injection Heq as -> Heq. by rewrite (IH b Heq).
Qed.

(** X14: the stored name of a file changes with the timestamp: the same
    file uploaded at two different times gets two different names, so the
    second upload does not replace the first. *)
Theorem stored_names_differ_by_time (now1 now2 : Z) (f : upload_part) :
  now1 <> now2 -> storage.filename now1 f <> storage.filename now2 f.
Proof.
  intros Hne Heq. apply Hne. unfold storage.filename in Heq.
  apply append_cancel_r in Heq. by apply (inj pretty).
Qed.

(** ** Applications, further *)

(** X15: the statement of POST /applications gets twenty-three parameters:
    the seven fields as sent, then sixteen values each of which is a truthy
    value of the request or the empty string, never [undefined], [null],
    0 or [false]. *)
Theorem application_params_shape (req : request) :
  length (application_params req) = 23%nat
  /\ take 7 (application_params req)
     = [field req "studentName"; field req "phoneNumber"; field req "student_id";
        field req "university"; field req "course_id"; field req "faculty";
        field req "majorSubject"]
  /\ Forall (fun v => truthy v = true \/ v = VStr "") (drop 7 (application_params req)).
Proof.
  split; [apply application_params_length |]. split.
  - unfold application_params. by destruct (collect_grades _).
  - unfold application_params. rewrite collect_grades_eq.
    cbn [app drop]. rewrite <- !list_fmap_compose.
    apply Forall_app; split; apply Forall_fmap, Forall_forall; intros i _;
      cbn [compose]; unfold js_or;
      repeat (match goal with
              | |- context [if truthy ?v then _ else _] => destruct (truthy v) eqn:?
              end; cbn [truthy]); auto.
Qed.

(** X16: only the first eight entries of a [grades] array are read: a
    ninth pair and all after it are dropped without an error. *)
Theorem grades_beyond_eight_ignored (l : list value) :
  collect_grades (VArr l) = collect_grades (VArr (take 8 l)).
Proof.
  rewrite !collect_grades_eq. cbn [seq fmap list_fmap get_index].
  by rewrite !lookup_take_lt by lia.
Qed.

(** X17: a [grades] value that is neither an array nor an object (a
    string, a number, [true]) passes the presence check when truthy and
    yields sixteen empty strings. *)
Theorem scalar_grades_all_empty (grades : value) :
  (forall l, grades <> VArr l) ->
  (forall o, grades <> VObj o) ->
  collect_grades grades = (replicate 8 (VStr ""), replicate 8 (VStr "")).
Proof.
  intros Harr Hobj. rewrite collect_grades_eq.
  assert (Hi : forall i k,
             (if truthy (get_index grades i)
              then js_or (get_prop (get_index grades i) k) (VStr "")
              else VStr "") = VStr "").
  { intros i k. destruct grades as [| |b|x|s|l|o]; cbn [get_index];
      try reflexivity; [| by destruct (Harr l) | by destruct (Hobj o)].
    destruct (String.get i s); reflexivity. }
  cbn [seq fmap list_fmap replicate]. by rewrite !Hi.
Qed.

(** ** Institutions and courses, further *)



Lemma select_row_courses (c i : gmap string value) :
  select_row [Column "c" "id" "id"; Column "c" "name" "name";
              Column "i" "name" "university";
              Literal requirements_text "requirements"] "c" c i
  = {[ "id" := col c "id"; "name" := col c "name"; "university" := col i "name";
       "requirements" := VStr "High School Diploma, Pass in relevant subjects" ]}.
Proof.
  unfold select_row. cbn [foldl].
  change (String.eqb "c" "c") with true. change (String.eqb "i" "c") with false.
  cbv iota. apply map_eq. intros k.
  rewrite !lookup_insert, lookup_singleton, lookup_empty.
  repeat case_decide; simplify_eq; done.
Qed.

(** X19: GET /courses lists exactly the pairs of a course and an
    institution whose id equals the course's institution_id, each as the
    course's id and name with the institution's name as university: a
    course without such an institution is not listed, and [faculty_id] is
    not shown. *)
Theorem courses_listing_is_inner_join (req : request) (w w' : world) (r : response) :
  get_courses req w = (inr r, w') ->
  status r = 200 ->
  exists data,
    json r = VArr (VObj <$> data)
    /\ forall row,
         row ∈ data
         <-> exists c i,
               c ∈ rows (db_courses (w_db w))
               /\ i ∈ rows (db_institutions (w_db w))
               /\ sql_eq (col c "institution_id") (col i "id") = true
               /\ row = {[ "id" := col c "id"; "name" := col c "name";
                           "university" := col i "name";
                           "requirements"
                           := VStr "High School Diploma, Pass in relevant subjects" ]}.
Proof.
  unfold get_courses. run_monad. unfold exec.
  destruct (fault _ _ _); [intros [= <- _] Hst; discriminate Hst |].
  unfold sql_get_courses. intros [= <- _] _. eexists. split; [reflexivity |].
  intros row. cbn [get_table]. rewrite list_elem_of_bind. split.
  - intros (c & Hrow & Hc).
    apply list_elem_of_fmap in Hrow as (i & -> & Hi).
    apply list_elem_of_filter in Hi as [Heq Hi].
    exists c, i. split; [exact Hc |]. split; [exact Hi |].
    split; [by apply Is_true_true | apply select_row_courses].
  - intros (c & i & Hc & Hi & Heq & ->). exists c. split; [| exact Hc].
    apply list_elem_of_fmap. exists i. split; [symmetry; apply select_row_courses |].
    apply list_elem_of_filter. split; [by apply Is_true_true | exact Hi].
Qed.




Lemma project_all_columns (r : gmap string value) :
  dom r = {[ "id"; "name"; "number_of_students"; "number_of_departments";
             "number_of_courses"; "logo" ]} ->
  project ["id"; "name"; "number_of_students"; "number_of_departments";
           "number_of_courses"; "logo"] r = r.
Proof.
  intros Hdom. apply map_eq. intros k.
  unfold project, col. cbn [fmap list_fmap list_to_map foldr uncurry fst snd].
  assert (Hin : forall c, c ∈ dom r -> Some (default VNull (r !! c)) = r !! c).
  { intros c [v ->]%elem_of_dom. reflexivity. }
  rewrite !lookup_insert, lookup_empty.
  repeat case_decide; subst;
    try (apply Hin; rewrite Hdom; set_unfold; auto 10).
  symmetry. apply not_elem_of_dom. rewrite Hdom. set_unfold. intuition congruence.
Qed.

(** X22: GET /university and GET /institutions return the same listing
    whenever every institution row has just the six columns that POST
    /institutions fills (id, name, the three numbers, logo) and the server
    accepts both statements. *)
Theorem university_same_as_institutions (req1 req2 : request) (w : world) :
  Forall (fun r => dom r = {[ "id"; "name"; "number_of_students";
                              "number_of_departments"; "number_of_courses"; "logo" ]})
         (rows (db_institutions (w_db w))) ->
  fault sql_get_university [] (w_db w) = None ->
  fault sql_get_institutions [] (w_db w) = None ->
  (get_university req1 w).1 = (get_institutions req2 w).1.
Proof.
  intros Hcols Hf1 Hf2. unfold get_university, get_institutions. run_monad.
  unfold exec. rewrite Hf1, Hf2. unfold sql_get_university, sql_get_institutions.
  cbn [get_table result_value fst]. do 3 f_equal.
  induction Hcols as [|r l Hr _ IH]; [done |].
  cbn [fmap list_fmap]. by rewrite (project_all_columns r Hr), IH.
Qed.

End Server.

(** ** The properties on the concrete environment *)

Section Instances.

Import Sample.

Lemma missing_field_rejected_witness :
  ((exists k, k ∈ required_fields POST_login /\ body (json_request ∅) !! k = None)
   \/ (requires_file POST_login = true /\ file (json_request ∅) = None))
  /\ exists r w',
       handle sql_eq no_fault bcrypt_hash bcrypt_compare
              POST_login (json_request ∅) (world_of db1) = (inr r, w')
       /\ status r = 400
       /\ json r = error_body (missing_message POST_login)
       /\ w_log w' = w_log (world_of db1)
       /\ w_db w' = w_db (world_of db1).
Proof.
  assert (H : (exists k, k ∈ required_fields POST_login
                         /\ body (json_request ∅) !! k = None)
              \/ (requires_file POST_login = true /\ file (json_request ∅) = None)).
  { left. exists "email". split; [constructor | reflexivity]. }
  split; [exact H |].
  exact (missing_field_rejected sql_eq no_fault bcrypt_hash bcrypt_compare
           POST_login (json_request ∅) (world_of db1) H).
Defined.

Lemma falsy_field_rejected_witness :
  "number_of_students" ∈ required_fields POST_institutions
  /\ body institution_no_students !! "number_of_students" = Some (VNum 0%float)
  /\ handle sql_eq no_fault bcrypt_hash bcrypt_compare
            POST_institutions institution_no_students (world_of db0)
     = (inr (res_status_json 400 (error_body "Please provide all required fields and a logo.")),
        world_of db0)
  /\ handle sql_eq no_fault bcrypt_hash bcrypt_compare
            POST_institutions institution_no_students (world_of db0)
     = handle sql_eq no_fault bcrypt_hash bcrypt_compare POST_institutions
         (with_body institution_no_students
            (delete "number_of_students" (body institution_no_students)))
         (world_of db0).
Proof.
  assert (Hk : "number_of_students" ∈ required_fields POST_institutions).
  { cbn [required_fields]. apply list_elem_of_In. right. left. reflexivity. }
  assert (Hv : body institution_no_students !! "number_of_students"
               = Some (VNum 0%float)) by reflexivity.
  split; [exact Hk |]. split; [exact Hv |].
  exact (falsy_field_rejected sql_eq no_fault bcrypt_hash bcrypt_compare
           POST_institutions institution_no_students "number_of_students"
           (VNum 0%float) (world_of db0) Hk Hv (or_introl eq_refl)).
Defined.


Lemma login_success_hides_password_witness :
  post_login sql_eq no_fault bcrypt_compare login_ada (world_of db1)
  = (inr ada_logged_in,
     (post_login sql_eq no_fault bcrypt_compare login_ada (world_of db1)).2)
  /\ status ada_logged_in = 200
  /\ post_login sql_eq no_fault bcrypt_compare login_wrong_password (world_of db1')
     = (inr ada_logged_in,
        (post_login sql_eq no_fault bcrypt_compare login_wrong_password (world_of db1')).2)
  /\ exists o,
       json ada_logged_in = VObj {[ "message" := VStr "Login successful"; "user" := VObj o ]}
       /\ dom o = {[ "id"; "user_type"; "name"; "email"; "profile_picture" ]}.
Proof.
  assert (H1 : post_login sql_eq no_fault bcrypt_compare login_ada (world_of db1)
               = (inr ada_logged_in,
                  (post_login sql_eq no_fault bcrypt_compare login_ada (world_of db1)).2))
    by (vm_compute; reflexivity).
  assert (H2 : status ada_logged_in = 200) by reflexivity.
  split; [exact H1 |]. split; [exact H2 |].
  split; [vm_compute; reflexivity |].
  destruct (login_success_hides_password sql_eq no_fault bcrypt_compare
              login_ada (world_of db1) _ ada_logged_in H1 H2)
    as (user & rest & o & _ & Hj & Hdom & _).
  by exists o.
Defined.

Lemma courses_requirements_constant_witness :
  get_courses sql_eq no_fault (json_request ∅) (world_of db1)
  = (inr (res_json (VArr [VObj law_listed])),
     (get_courses sql_eq no_fault (json_request ∅) (world_of db1)).2)
  /\ law !! "requirements" = Some (VStr "none")
  /\ exists data,
       VArr [VObj law_listed] = VArr (VObj <$> data)
       /\ forall row, row ∈ data ->
            row !! "requirements"
            = Some (VStr "High School Diploma, Pass in relevant subjects").
Proof.
  assert (H1 : get_courses sql_eq no_fault (json_request ∅) (world_of db1)
               = (inr (res_json (VArr [VObj law_listed])),
                  (get_courses sql_eq no_fault (json_request ∅) (world_of db1)).2))
    by (vm_compute; reflexivity).
  split; [exact H1 |]. split; [reflexivity |].
  exact (courses_requirements_constant sql_eq no_fault (json_request ∅)
           (world_of db1) _ _ H1 eq_refl).
Defined.

Lemma register_stores_hash_witness :
  post_register sql_eq no_fault bcrypt_hash register_request (world_of db0)
  = (inr (res_status_json 201 (message_body "User registered successfully.")),
     (post_register sql_eq no_fault bcrypt_hash register_request (world_of db0)).2)
  /\ exists (h : string) (row : gmap string value),
       bcrypt_hash (field register_request "password") 10 = Some h
       /\ row !! "password" = Some (VStr h)
       /\ (field register_request "password" <> VStr h ->
           row !! "password" <> Some (field register_request "password")).
Proof.
  assert (H1 : post_register sql_eq no_fault bcrypt_hash register_request (world_of db0)
               = (inr (res_status_json 201 (message_body "User registered successfully.")),
                  (post_register sql_eq no_fault bcrypt_hash register_request
                     (world_of db0)).2))
    by (vm_compute; reflexivity).
  split; [exact H1 |].
  destruct (register_stores_hash sql_eq no_fault bcrypt_hash bcrypt_compare
              register_request (world_of db0) _ _ H1 eq_refl)
    as (h & row & Hh & _ & _ & Hpw & Hne).
  by exists h, row.
Defined.

Lemma upload_path_persisted_witness :
  requires_file POST_register = true
  /\ upload (form_request register_body picture) = Some picture
  /\ part_fieldname picture = upload_field POST_register
  /\ fileFilter picture = inr true
  /\ (forall k, k ∈ required_fields POST_register ->
                truthy (field (form_request register_body picture) k) = true
                /\ is_scalar (field (form_request register_body picture) k) = true)
  /\ bcrypt_hash (field (form_request register_body picture) "password") 10
     = Some "$2b$10$lovelace"
  /\ (serve sql_eq no_fault bcrypt_hash bcrypt_compare POST_register 1700000000000
            (form_request register_body picture) (world_of db0)).1
     = inr (res_status_json 201 (message_body "User registered successfully."))
  /\ exists row,
       rows (db_users (w_db (serve sql_eq no_fault bcrypt_hash bcrypt_compare
                                   POST_register 1700000000000
                                   (form_request register_body picture)
                                   (world_of db0)).2))
       = [row]
       /\ row !! "profile_picture" = Some (VStr "uploads/1700000000000_ada.png")
       /\ w_disk (serve sql_eq no_fault bcrypt_hash bcrypt_compare
                        POST_register 1700000000000
                        (form_request register_body picture) (world_of db0)).2
          = ["uploads/1700000000000_ada.png"].
Proof.
  assert (Hfields : forall k, k ∈ required_fields POST_register ->
            truthy (field (form_request register_body picture) k) = true
            /\ is_scalar (field (form_request register_body picture) k) = true).
  { intros k Hk. apply list_elem_of_In in Hk. cbn [required_fields In] in Hk.
    destruct Hk as [<- | [<- | [<- | [<- | []]]]]; split; reflexivity. }
  assert (Hhash : bcrypt_hash (field (form_request register_body picture) "password") 10
                  = Some "$2b$10$lovelace") by reflexivity.
  repeat (split; [reflexivity |]).
  split; [exact Hfields |]. split; [exact Hhash |]. split; [reflexivity |].
  destruct (upload_path_persisted sql_eq no_fault bcrypt_hash bcrypt_compare
              POST_register 1700000000000 (form_request register_body picture)
              (world_of db0) picture eq_refl eq_refl eq_refl eq_refl)
    as (out & w' & Hrun & Hdisk & _ & Hdone).
  destruct (Hdone Hfields (fun _ => ex_intro _ _ Hhash) (fun _ _ _ => eq_refl))
    as (r & row & _ & _ & Hrows & Hcol).
  rewrite Hrun. exists row.
  split; [exact Hrows |]. split; [exact Hcol | exact Hdisk].
Defined.

Lemma error_statuses_witness :
  app sql_eq no_fault bcrypt_hash bcrypt_compare DELETE_institutions_id 0
      (Parsed delete_42) (world_of db1)
  = (inr (res_status_json 404 (error_body "Institution not found.")),
     (app sql_eq no_fault bcrypt_hash bcrypt_compare DELETE_institutions_id 0
          (Parsed delete_42) (world_of db1)).2)
  /\ Forall (fun row => ¬ sql_eq (col row "id")
                            (to_sql (default VUndefined (params delete_42 !! "id"))))
            (rows (db_institutions (w_db (world_of db1)))).
Proof.
  assert (H1 : app sql_eq no_fault bcrypt_hash bcrypt_compare DELETE_institutions_id 0
                   (Parsed delete_42) (world_of db1)
               = (inr (res_status_json 404 (error_body "Institution not found.")),
                  (app sql_eq no_fault bcrypt_hash bcrypt_compare
                       DELETE_institutions_id 0 (Parsed delete_42) (world_of db1)).2))
    by (vm_compute; reflexivity).
  split; [exact H1 |].
  destruct (error_statuses sql_eq no_fault bcrypt_hash bcrypt_compare
              DELETE_institutions_id 0 (Parsed delete_42) (world_of db1) _ _ H1)
    as (_ & _ & _ & Hreq).
  destruct (Hreq delete_42 eq_refl) as (_ & _ & H404 & _).
  exact (proj2 (H404 eq_refl)).
Defined.

(** C2, as stated, fails: a login with an unknown e-mail address is an
    error response whose status is neither 400 nor 500. *)
Lemma error_status_401_counterexample :
  ~ (forall rt now a w r w',
        app sql_eq no_fault bcrypt_hash bcrypt_compare rt now a w = (inr r, w') ->
        400 <= status r ->
        status r = 400 \/ status r = 500).
Proof.
  intros Hclaim.
  assert (H1 : app sql_eq no_fault bcrypt_hash bcrypt_compare POST_login 0
                   (Parsed login_unknown) (world_of db1)
               = (inr (res_status_json 401 (error_body "Invalid email or password.")),
                  (app sql_eq no_fault bcrypt_hash bcrypt_compare POST_login 0
                       (Parsed login_unknown) (world_of db1)).2))
    by (vm_compute; reflexivity).
  destruct (Hclaim POST_login 0 (Parsed login_unknown) (world_of db1) _ _ H1) as [H|H];
    cbn [status res_status_json] in *; lia.
Qed.


(** A lost connection is answered 500 by the handler's [catch]. *)
Example get_users_connection_lost :
  get_users sql_eq connection_lost (json_request ∅) (world_of db1)
  = (inr (res_status_json 500 (error_body "Database error while fetching users.")),
     {| w_db := db1; w_log := [(sql_get_users, [])]; w_disk := [];
        w_console := [DbError (ER_OTHER "PROTOCOL_CONNECTION_LOST")] |}).
Proof. reflexivity. Qed.

(** A body the JSON parser refuses is answered by the error middleware. *)
Example unparsable_body :
  (app sql_eq no_fault bcrypt_hash bcrypt_compare POST_login 0 Unparsable (world_of db1)).1
  = inr (res_status_json 500 (error_body "Something went wrong!")).
Proof. reflexivity. Qed.

(** The parameters of the sample application: the seven fields, the eight
    subjects, then the eight grades. *)
Example application_params_sample :
  application_params application
  = [VStr "Ada"; VStr "5550100"; VStr "S1"; VStr "NUL"; VStr "1"; VStr "Law"; VStr "Maths";
     VStr "Maths"; VStr ""; VStr ""; VStr ""; VStr ""; VStr ""; VStr ""; VStr "";
     VStr "A"; VStr ""; VStr ""; VStr ""; VStr ""; VStr ""; VStr ""; VStr ""].
Proof. vm_compute. reflexivity. Qed.

(** A text file sent as logo is refused by the middleware; the handler
    does not run. *)
Example text_upload_refused :
  serve sql_eq no_fault bcrypt_hash bcrypt_compare POST_institutions 0
        (form_request institution_body
           {| part_fieldname := "logo"; part_originalname := "notes.txt";
              part_mimetype := "text/plain" |})
        (world_of db0)
  = (inl (UploadError "Invalid file type. Only JPEG, PNG, and GIF are allowed."),
     world_of db0).
Proof. reflexivity. Qed.

(** The part [script] passes the middleware, and the institution is
    created with the script's path as its logo. *)
Example script_upload_stored :
  exists w',
    serve sql_eq no_fault bcrypt_hash bcrypt_compare POST_institutions 17
          (form_request institution_body script) (world_of db0)
    = (inr (res_status_json 201 (VObj {[
              "message" := VStr "Institution added successfully.";
              "institution" := VObj {[
                "id" := js_number 1;
                "name" := VStr "NUL";
                "number_of_students" := VStr "9000";
                "number_of_departments" := VStr "40";
                "number_of_courses" := VStr "120";
                "logo" := VStr "uploads/17_run.sh" ]} ]})), w')
    /\ w_disk w' = ["uploads/17_run.sh"].
Proof. eexists. split; [vm_compute; reflexivity | reflexivity]. Qed.

End Instances.

(** ** Further instances *)

Import Sample.

Lemma delete_removes_matching_rows_witness :
  delete_institution sql_eq_coercing no_fault delete_1 (world_of db1)
  = (inr (res_status_json 200 (message_body "Institution deleted successfully.")),
     (delete_institution sql_eq_coercing no_fault delete_1 (world_of db1)).2)
  /\ rows (db_institutions (w_db (world_of db1))) = [uni]
  /\ rows (db_institutions
             (w_db (delete_institution sql_eq_coercing no_fault delete_1 (world_of db1)).2))
     = [].
Proof.
  assert (H1 : delete_institution sql_eq_coercing no_fault delete_1 (world_of db1)
               = (inr (res_status_json 200 (message_body "Institution deleted successfully.")),
                  (delete_institution sql_eq_coercing no_fault delete_1 (world_of db1)).2))
    by reflexivity.
  split; [exact H1 |]. split; [reflexivity |].
  destruct (delete_removes_matching_rows sql_eq_coercing no_fault delete_1 (world_of db1)
              _ _ H1 eq_refl) as (Hrows & _ & _).
  rewrite Hrows. reflexivity.
Defined.

Lemma delete_twice_not_found_witness :
  delete_institution sql_eq no_fault delete_c7 (world_of db2)
  = (inr (res_status_json 200 (message_body "Institution deleted successfully.")),
     (delete_institution sql_eq no_fault delete_c7 (world_of db2)).2)
  /\ (delete_institution sql_eq no_fault delete_c7
        (delete_institution sql_eq no_fault delete_c7 (world_of db2)).2).1
     = inr (res_status_json 404 (error_body "Institution not found.")).
Proof.
  assert (H1 : delete_institution sql_eq no_fault delete_c7 (world_of db2)
               = (inr (res_status_json 200 (message_body "Institution deleted successfully.")),
                  (delete_institution sql_eq no_fault delete_c7 (world_of db2)).2))
    by reflexivity.
  split; [exact H1 |].
  exact (delete_twice_not_found sql_eq no_fault delete_c7 (world_of db2) _ _
           H1 eq_refl eq_refl).
Defined.


Lemma register_then_login_witness :
  post_register sql_eq no_fault bcrypt_hash register_request (world_of db0)
  = (inr (res_status_json 201 (message_body "User registered successfully.")),
     (post_register sql_eq no_fault bcrypt_hash register_request (world_of db0)).2)
  /\ users_with_email sql_eq (w_db (world_of db0)) (field register_request "email") = []
  /\ exists r2 w'',
       post_login sql_eq no_fault bcrypt_compare login_ada
         (post_register sql_eq no_fault bcrypt_hash register_request (world_of db0)).2
       = (inr r2, w'')
       /\ status r2 = 200.
Proof.
  assert (H1 : post_register sql_eq no_fault bcrypt_hash register_request (world_of db0)
               = (inr (res_status_json 201 (message_body "User registered successfully.")),
                  (post_register sql_eq no_fault bcrypt_hash register_request
                     (world_of db0)).2))
    by reflexivity.
  assert (H2 : users_with_email sql_eq (w_db (world_of db0))
                 (field register_request "email") = []) by reflexivity.
  assert (H3 : sql_eq (field register_request "email") (field register_request "email")
               = true) by reflexivity.
  assert (H4 : forall h, bcrypt_hash (field register_request "password") 10 = Some h ->
                         bcrypt_compare (field register_request "password") (VStr h)
                         = Some true).
  { intros h Hh.
    assert (Hten : bcrypt_hash (field register_request "password") 10
                   = Some "$2b$10$lovelace") by reflexivity.
    rewrite Hten in Hh. injection Hh as <-. vm_compute. reflexivity. }
  split; [exact H1 |]. split; [exact H2 |].
  destruct (register_then_login sql_eq no_fault bcrypt_hash bcrypt_compare
              register_request login_ada (world_of db0) _ _ H1 eq_refl
              eq_refl eq_refl eq_refl H2 H3 H4 eq_refl eq_refl eq_refl)
    as (o & r2 & w'' & Hrun & Hst & _).
  by exists r2, w''.
Defined.

Lemma login_first_match_only_witness :
  users_with_email sql_eq (w_db (world_of db1)) (field login_wrong_password "email") = [ada]
  /\ users_with_email sql_eq (w_db (world_of db3)) (field login_wrong_password "email")
     = [ada; ada']
  /\ (post_login sql_eq no_fault bcrypt_compare login_wrong_password (world_of db1)).1
     = (post_login sql_eq no_fault bcrypt_compare login_wrong_password (world_of db3)).1.
Proof.
  assert (H1 : users_with_email sql_eq (w_db (world_of db1))
                 (field login_wrong_password "email") = [ada])
    by reflexivity.
  assert (H2 : users_with_email sql_eq (w_db (world_of db3))
                 (field login_wrong_password "email") = [ada; ada'])
    by reflexivity.
  split; [exact H1 |]. split; [exact H2 |].
  exact (login_first_match_only sql_eq no_fault bcrypt_hash bcrypt_compare
           login_wrong_password (world_of db1) (world_of db3) ada [] [ada']
           H1 H2 eq_refl eq_refl).
Defined.

Lemma register_hash_rejection_uncaught_witness :
  incomplete POST_register register_number_password = false
  /\ bcrypt_hash (field register_number_password "password") 10 = None
  /\ post_register sql_eq no_fault bcrypt_hash register_number_password (world_of db0)
     = (inl BcryptError, world_of db0).
Proof.
  assert (H1 : incomplete POST_register register_number_password = false)
    by reflexivity.
  assert (H2 : bcrypt_hash (field register_number_password "password") 10 = None)
    by reflexivity.
  split; [exact H1 |]. split; [exact H2 |].
  exact (register_hash_rejection_uncaught sql_eq no_fault bcrypt_hash
           register_number_password (world_of db0) H1 H2).
Defined.

Lemma login_compare_rejection_is_500_witness :
  incomplete POST_login login_number_password = false
  /\ users_with_email sql_eq (w_db (world_of db1)) (field login_number_password "email")
     = [ada]
  /\ bcrypt_compare (field login_number_password "password")
                    (get_prop (VObj ada) "password") = None
  /\ (post_login sql_eq no_fault bcrypt_compare login_number_password (world_of db1)).1
     = inr (res_status_json 500 (error_body "Database query error.")).
Proof.
  assert (H1 : incomplete POST_login login_number_password = false)
    by reflexivity.
  assert (H2 : users_with_email sql_eq (w_db (world_of db1))
                 (field login_number_password "email") = [ada])
    by reflexivity.
  assert (H3 : bcrypt_compare (field login_number_password "password")
                              (get_prop (VObj ada) "password") = None)
    by reflexivity.
  split; [exact H1 |]. split; [exact H2 |]. split; [exact H3 |].
  by rewrite (login_compare_rejection_is_500 sql_eq no_fault bcrypt_compare
                login_number_password (world_of db1) ada [] H1 eq_refl H2 H3).
Defined.

Lemma register_then_list_shows_hash_witness :
  post_register sql_eq no_fault bcrypt_hash register_request (world_of db0)
  = (inr (res_status_json 201 (message_body "User registered successfully.")),
     (post_register sql_eq no_fault bcrypt_hash register_request (world_of db0)).2)
  /\ exists (h : string) (row : gmap string value) (listing : list value),
       (get_users sql_eq no_fault (json_request ∅)
          (post_register sql_eq no_fault bcrypt_hash register_request (world_of db0)).2).1
       = inr (res_json (VArr (listing ++ [VObj row])))
       /\ row !! "password" = Some (VStr h).
Proof.
  assert (H1 : post_register sql_eq no_fault bcrypt_hash register_request (world_of db0)
               = (inr (res_status_json 201 (message_body "User registered successfully.")),
                  (post_register sql_eq no_fault bcrypt_hash register_request
                     (world_of db0)).2))
    by reflexivity.
  split; [exact H1 |].
  destruct (register_then_list_shows_hash sql_eq no_fault bcrypt_hash bcrypt_compare
              register_request (json_request ∅) (world_of db0) _ _ H1 eq_refl eq_refl)
    as (h & row & listing & _ & Hlist & Hpw).
  by exists h, row, listing.
Defined.

Lemma refused_upload_changes_nothing_witness :
  fileFilter notes <> inr true
  /\ exists msg,
       serve sql_eq no_fault bcrypt_hash bcrypt_compare POST_institutions 0
             (form_request institution_body notes) (world_of db0)
       = (inl (UploadError msg), world_of db0).
Proof.
  assert (H1 : fileFilter notes <> inr true) by discriminate.
  split; [exact H1 |].
  exact (refused_upload_changes_nothing sql_eq no_fault bcrypt_hash bcrypt_compare
           POST_institutions 0 (form_request institution_body notes) (world_of db0) notes
           eq_refl eq_refl (or_intror H1)).
Defined.

Lemma accepted_upload_kept_on_400_witness :
  fileFilter picture = inr true
  /\ truthy (field (form_request ∅ picture) "name") = false
  /\ exists w',
       serve sql_eq no_fault bcrypt_hash bcrypt_compare POST_register 1700000000000
             (form_request ∅ picture) (world_of db0)
       = (inr (res_status_json 400 (error_body (missing_message POST_register))), w')
       /\ w_disk w' = w_disk (world_of db0)
                      ++ ["uploads/" +:+ pretty 1700000000000 +:+ "_"
                          +:+ part_originalname picture]
       /\ w_db w' = w_db (world_of db0)
       /\ w_log w' = w_log (world_of db0).
Proof.
  split; [reflexivity |]. split; [reflexivity |].
  refine (accepted_upload_kept_on_400 sql_eq no_fault bcrypt_hash bcrypt_compare
            POST_register 1700000000000 (form_request ∅ picture) (world_of db0)
            picture "name" eq_refl eq_refl eq_refl eq_refl _ eq_refl).
  apply list_elem_of_In. left. reflexivity.
Defined.

Lemma stored_names_differ_by_time_witness :
  1700000000000 <> 1700000000001
  /\ storage.filename 1700000000000 picture <> storage.filename 1700000000001 picture.
Proof.
  assert (H1 : 1700000000000 <> 1700000000001) by discriminate.
  split; [exact H1 |].
  exact (stored_names_differ_by_time 1700000000000 1700000000001 picture H1).
Defined.

Lemma scalar_grades_all_empty_witness :
  collect_grades (VStr "AB") = (replicate 8 (VStr ""), replicate 8 (VStr "")).
Proof.
  apply scalar_grades_all_empty; intros ?; discriminate.
Defined.

Lemma courses_listing_is_inner_join_witness :
  get_courses sql_eq no_fault (json_request ∅) (world_of db1)
  = (inr (res_json (VArr [VObj law_listed])),
     (get_courses sql_eq no_fault (json_request ∅) (world_of db1)).2)
  /\ exists data : list (gmap string value),
       VArr [VObj law_listed] = VArr (VObj <$> data)
       /\ forall row, row ∈ data ->
            exists c i, c ∈ rows (db_courses db1) /\ i ∈ rows (db_institutions db1)
                        /\ row !! "university" = Some (col i "name").
Proof.
  match goal with |- ?A /\ _ => assert (H1 : A) by reflexivity end.
  split; [exact H1 |].
  destruct (courses_listing_is_inner_join sql_eq no_fault (json_request ∅) (world_of db1)
              _ _ H1 eq_refl) as (data & Hdata & Hrows).
  exists data. split; [exact Hdata |].
  intros row Hrow. apply Hrows in Hrow as (c & i & Hc & Hi & _ & ->).
  exists c, i. split; [exact Hc |]. split; [exact Hi |]. reflexivity.
Defined.


Lemma university_same_as_institutions_witness :
  Forall (fun r => dom r = {[ "id"; "name"; "number_of_students";
                              "number_of_departments"; "number_of_courses"; "logo" ]})
         (rows (db_institutions (w_db (world_of db2))))
  /\ (get_university sql_eq no_fault (json_request ∅) (world_of db2)).1
     = (get_institutions sql_eq no_fault (json_request ∅) (world_of db2)).1.
Proof.
  assert (H1 : Forall (fun r => dom r = {[ "id"; "name"; "number_of_students";
                                           "number_of_departments"; "number_of_courses";
                                           "logo" ]})
                      (rows (db_institutions (w_db (world_of db2))))).
  { repeat constructor; unfold uni, college;
      rewrite !dom_insert_L, dom_singleton_L; set_solver. }
  split; [exact H1 |].
  exact (university_same_as_institutions sql_eq no_fault (json_request ∅) (json_request ∅)
           (world_of db2) H1 eq_refl eq_refl).
Defined.
